(** * Fitness tracker module (homework.py)

    A shallow embedding of the training classes of [homework.py]
    ([Training], [Running], [SportsWalking], [Swimming]), of the
    [InfoMessage] dataclass with its message template, and of the
    [read_package] factory.

    Numbers.  The Python values handled by the module are [int]s and
    binary64 [float]s.  The module is embedded twice.  In the first
    embedding both are exact rationals ([Q]), compared with [==]: the
    arithmetic of the formulas, the order of the failing operations and the
    decimal rendering are those of the source, while the rounding error of
    binary64, overflow to [inf] and [nan] are outside the model; it carries
    the properties of the formulas.  Division is Python's [/]: it raises
    [ZeroDivisionError] on a zero divisor.  The packages of the entry point
    are also evaluated in binary64 ([packages_binary64]): their rendering is
    that of exact arithmetic.  The second embedding ([Runtime]) keeps the
    numbers of the run time: an [int] or a binary64 [float], with the
    rounding of every operation, [inf], [nan], the negative zero and the
    [OverflowError] of a conversion or a square out of range; it carries
    the properties of the printed line and of the failures.

    Exceptions.  Every method returns a [result]: either a value or the
    exception that the Python code lets escape. *)

From Stdlib Require Import ZArith QArith Qabs Qround Qpower.
From Stdlib Require Import String Ascii List Bool SpecFloat Lia Lqa.
From Stdlib Require Import Numbers.DecimalString Numbers.DecimalN.
Import ListNotations.

Open Scope string_scope.
Open Scope Q_scope.

(** ** Exceptions and results *)

Inductive exn : Type :=
| KeyError (key : string)
| TypeError
| AttributeError (name : string)
| ValueError (msg : string)
| ZeroDivisionError
| OverflowError
| NotImplementedError
| Unmodelled.

Inductive result (A : Type) : Type :=
| Ok (a : A)
| Raise (e : exn).

Arguments Ok {A} a.
Arguments Raise {A} e.

Definition bind {A B : Type} (r : result A) (k : A -> result B) : result B :=
  match r with
  | Ok a => k a
  | Raise e => Raise e
  end.

Notation "x <- r ;; k" := (bind r (fun x => k))
  (at level 61, r at next level, right associativity).

(** [try: body except ValueError: handler]. *)
Definition try_except_ValueError {A : Type}
    (body : result A) (handler : string -> result A) : result A :=
  match body with
  | Raise (ValueError msg) => handler msg
  | other => other
  end.

(** The two faults of the arithmetic, and a call that fails with them
    only. *)
Definition arithmetic_error (e : exn) : Prop :=
  e = ZeroDivisionError \/ e = OverflowError.

Definition fails_in_arithmetic {A : Type} (r : result A) : Prop :=
  forall e, r = Raise e -> arithmetic_error e.

(** [returns r q]: the call returned a number equal to [q]. *)
Definition returns (r : result Q) (q : Q) : Prop :=
  exists v, r = Ok v /\ v == q.

(** ** Arithmetic *)

(** [x / y] on Python numbers. *)
Definition truediv (x y : Q) : result Q :=
  if Qeq_bool y 0 then Raise ZeroDivisionError else Ok (x / y).

(** ** Rendering of [format(x, '.Nf')] *)

(** Nearest integer, ties to the even neighbour. *)
Definition round_half_even (q : Q) : Z :=
  let n := Qnum q in
  let d := Zpos (Qden q) in
  let k := (n / d)%Z in
  let r := (n mod d)%Z in
  match (2 * r ?= d)%Z with
  | Lt => k
  | Gt => (k + 1)%Z
  | Eq => if Z.even k then k else (k + 1)%Z
  end.

Definition digit_char (d : Z) : ascii :=
  ascii_of_nat (48 + Z.to_nat d).

(** [n] on exactly [width] decimal digits, most significant first. *)
Fixpoint zfill_digits (width : nat) (n : Z) : string :=
  match width with
  | O => ""
  | S w => zfill_digits w (n / 10) ++ String (digit_char (n mod 10)) ""
  end.

(** The decimal digits of a natural number, no leading zero, ["0"] for 0. *)
Definition int_digits (n : Z) : string :=
  NilZero.string_of_uint (N.to_uint (Z.to_N n)).

(** Fixed-point notation with [prec] digits after the point: the value is
    rounded to the nearest multiple of [10^-prec] (ties to even), a negative
    number keeps its sign even when it rounds to zero. *)
Definition format_f (prec : nat) (x : Q) : string :=
  let scale := (10 ^ Z.of_nat prec)%Z in
  let n := Z.abs (round_half_even (x * inject_Z scale)) in
  (if (Qnum x <? 0)%Z then "-" else "")
  ++ int_digits (n / scale)
  ++ (match prec with
      | O => ""
      | S _ => "." ++ zfill_digits prec (n mod scale)
      end).

(** *** Reading a rendering back *)

Definition digit_value (c : ascii) : option nat :=
  let n := nat_of_ascii c in
  if (48 <=? n)%nat && (n <=? 57)%nat then Some (n - 48)%nat else None.

Definition is_digit (c : ascii) : bool :=
  match digit_value c with
  | Some _ => true
  | None => false
  end.

Fixpoint all_digits (s : string) : bool :=
  match s with
  | "" => true
  | String c rest => is_digit c && all_digits rest
  end.

(** The number written by the decimal digits [s], read after [acc]. *)
Fixpoint digits_value (acc : Z) (s : string) : Z :=
  match s with
  | "" => acc
  | String c rest =>
      digits_value (10 * acc + (Z.of_nat (nat_of_ascii c) - 48)) rest
  end.

(** No superfluous zero in front of an integer part. *)
Definition no_leading_zero (ip : string) : Prop :=
  ip = "0" \/ exists c rest, ip = String c rest /\ c <> "0"%char.

(** [s] writes [x] in fixed-point notation with [prec] decimals: a minus
    sign exactly when [x] is negative, an integer part of at least one
    digit without a leading zero, the point and exactly [prec] digits; the
    number written is within half a unit of the last place of the absolute
    value of [x]. *)
Definition fixed_point (prec : nat) (x : Q) (s : string) : Prop :=
  exists sign ip fp,
    s = sign ++ ip ++ "." ++ fp
    /\ ((x < 0 /\ sign = "-") \/ (0 <= x /\ sign = ""))
    /\ ip <> ""
    /\ all_digits ip = true
    /\ no_leading_zero ip
    /\ String.length fp = prec
    /\ all_digits fp = true
    /\ Qabs (inject_Z (digits_value 0 (ip ++ fp))
             / inject_Z (10 ^ Z.of_nat prec) - Qabs x)
       <= 1 / (2 * inject_Z (10 ^ Z.of_nat prec)).

(** ** Binary64

    The arithmetic of Python's [float]: binary64, round to nearest, ties to
    even.  [exact] is the exact value of a finite number, [render] the text
    that [format(x, '.Nf')] gives for a float. *)

Module B64.

Definition prec : Z := 53.
Definition emax : Z := 1024.

(** The nearest binary64 of an integer; an infinity beyond the range. *)
Definition of_Z (z : Z) : spec_float :=
  binary_normalize prec emax z 0 false.

(** A decimal literal [m / 10^k] of the source: the nearest binary64. *)
Definition lit (q : Q) : spec_float :=
  SFdiv prec emax (of_Z (Qnum q)) (of_Z (Zpos (Qden q))).

Definition add : spec_float -> spec_float -> spec_float := SFadd prec emax.
Definition mul : spec_float -> spec_float -> spec_float := SFmul prec emax.
Definition div : spec_float -> spec_float -> spec_float := SFdiv prec emax.

Definition exact (f : spec_float) : option Q :=
  match f with
  | S754_zero _ => Some 0
  | S754_finite s m e =>
      let v := inject_Z (Zpos m) * 2 ^ e in
      Some (if s then - v else v)
  | _ => None
  end.

(** [format(f, '.Nf')]: a finite number in fixed-point notation, the sign
    of a negative zero kept; [inf], [-inf] and [nan] otherwise. *)
Definition render (prec : nat) (f : spec_float) : string :=
  match f with
  | S754_nan => "nan"
  | S754_infinity s => if s then "-inf" else "inf"
  | S754_zero s => (if s then "-" else "") ++ format_f prec 0
  | S754_finite s m e =>
      let v := inject_Z (Zpos m) * 2 ^ e in
      format_f prec (if s then - v else v)
  end.

Definition format_f (prec : nat) (f : spec_float) : option string :=
  option_map (format_f prec) (exact f).

(** [x == 0.0]: both zeros. *)
Definition is_zero (f : spec_float) : bool :=
  match f with
  | S754_zero _ => true
  | _ => false
  end.

Definition is_finite (f : spec_float) : bool :=
  match f with
  | S754_zero _ | S754_finite _ _ _ => true
  | _ => false
  end.

Definition sign_bit (f : spec_float) : bool :=
  match f with
  | S754_zero s | S754_infinity s | S754_finite s _ _ => s
  | S754_nan => false
  end.

End B64.

Declare Scope b64_scope.
Delimit Scope b64_scope with b64.
Infix "+" := B64.add : b64_scope.
Infix "*" := B64.mul : b64_scope.
Infix "/" := B64.div : b64_scope.

(** ** The numbers of the run time

    A value received from the sensors is an [int] or a [float]. *)

Inductive number : Type :=
| PyInt (z : Z)
| PyFloat (f : spec_float).

(** The conversion of an operand to [float]: an [int] is rounded to the
    nearest binary64, and an [int] beyond the range of binary64 raises
    [OverflowError]. *)
Definition to_float (x : number) : result spec_float :=
  match x with
  | PyFloat f => Ok f
  | PyInt z =>
      match B64.of_Z z with
      | S754_infinity _ => Raise OverflowError
      | f => Ok f
      end
  end.

(** [x] is a finite number, and [f] is the float it is rendered from. *)
Definition finite_number (x : number) (f : spec_float) : Prop :=
  to_float x = Ok f /\ B64.is_finite f = true.

(** [s] writes the finite float [f] in fixed-point notation with [prec]
    decimals: a minus sign exactly when the sign bit of [f] is set, an
    integer part of at least one digit without a leading zero, the point
    and exactly [prec] digits; the number written is within half a unit of
    the last place of the absolute value of [f]. *)
Definition fixed_decimals (prec : nat) (f : spec_float) (s : string) : Prop :=
  exists v sign ip fp,
    B64.exact f = Some v
    /\ s = sign ++ ip ++ "." ++ fp
    /\ sign = (if B64.sign_bit f then "-" else "")
    /\ ip <> ""
    /\ all_digits ip = true
    /\ no_leading_zero ip
    /\ String.length fp = prec
    /\ all_digits fp = true
    /\ Qabs (inject_Z (digits_value 0 (ip ++ fp))
             / inject_Z (10 ^ Z.of_nat prec) - Qabs v)
       <= 1 / (2 * inject_Z (10 ^ Z.of_nat prec)).

(** ** [str.format] with keyword arguments

    The replacement fields of the module's template have the forms [{name}]
    and [{name:.Nf}]; [{{] and [}}] stand for a brace.  Positional fields,
    conversions and the other format specifications are not part of the
    model ([Unmodelled]).  A number is either an exact rational ([VNum]) or
    a number of the run time ([VNumber]): an [int] is converted to [float]
    before it is rendered, as [int.__format__] does for the type [f]. *)

Inductive value : Type :=
| VStr (s : string)
| VNum (q : Q)
| VNumber (x : number).

Fixpoint getitem {A : Type} (d : list (string * A)) (key : string) : result A :=
  match d with
  | [] => Raise (KeyError key)
  | (k, v) :: rest => if String.eqb k key then Ok v else getitem rest key
  end.

Inductive format_spec : Type :=
| SpecEmpty
| SpecFixed (prec : nat)
| SpecOther.

(** The digits of a precision followed by the presentation type [f]. *)
Fixpoint parse_precision (acc : nat) (seen : bool) (s : string) : format_spec :=
  match s with
  | "" => SpecOther
  | String c rest =>
      match digit_value c with
      | Some d => parse_precision (10 * acc + d) true rest
      | None =>
          if Ascii.eqb c "f" && seen && String.eqb rest ""
          then SpecFixed acc else SpecOther
      end
  end.

Definition parse_spec (s : string) : format_spec :=
  match s with
  | "" => SpecEmpty
  | String c rest =>
      if Ascii.eqb c "." then parse_precision 0 false rest else SpecOther
  end.

Definition format_value (v : value) (spec : string) : result string :=
  match v, parse_spec spec with
  | VStr s, SpecEmpty => Ok s
  | VStr _, SpecFixed _ =>
      Raise (ValueError "Unknown format code 'f' for object of type 'str'")
  | VNum q, SpecFixed prec => Ok (format_f prec q)
  | VNumber x, SpecFixed prec => f <- to_float x ;; Ok (B64.render prec f)
  | _, _ => Raise Unmodelled
  end.

Inductive format_state : Type :=
| InText
| AfterClose
| InName (name : string)
| InSpec (name spec : string).

Definition snoc (s : string) (c : ascii) : string := s ++ String c "".

Fixpoint format_from (st : format_state) (template : string)
    (kwargs : list (string * value)) : result string :=
  match template with
  | "" =>
      match st with
      | InText => Ok ""
      | AfterClose => Raise (ValueError "Single '}' encountered in format string")
      | InName "" => Raise (ValueError "Single '{' encountered in format string")
      | _ => Raise (ValueError "expected '}' before end of string")
      end
  | String c rest =>
      match st with
      | InText =>
          if Ascii.eqb c "{" then format_from (InName "") rest kwargs
          else if Ascii.eqb c "}" then format_from AfterClose rest kwargs
          else tail <- format_from InText rest kwargs ;; Ok (String c tail)
      | AfterClose =>
          if Ascii.eqb c "}"
          then tail <- format_from InText rest kwargs ;; Ok (String c tail)
          else Raise (ValueError "Single '}' encountered in format string")
      | InName name =>
          if Ascii.eqb c "{" && String.eqb name ""
          then tail <- format_from InText rest kwargs ;; Ok (String c tail)
          else if Ascii.eqb c "}" then
            v <- getitem kwargs name ;;
            field <- format_value v "" ;;
            tail <- format_from InText rest kwargs ;;
            Ok (field ++ tail)
          else if Ascii.eqb c ":" then format_from (InSpec name "") rest kwargs
          else format_from (InName (snoc name c)) rest kwargs
      | InSpec name spec =>
          if Ascii.eqb c "}" then
            v <- getitem kwargs name ;;
            field <- format_value v spec ;;
            tail <- format_from InText rest kwargs ;;
            Ok (field ++ tail)
          else format_from (InSpec name (snoc spec c)) rest kwargs
      end
  end.

(** The method [format] of [str], called with keyword arguments only. *)
Definition format (template : string) (kwargs : list (string * value))
  : result string :=
  format_from InText template kwargs.

(** ** The dataclass [InfoMessage] *)

Module InfoMessage.

Record t : Type := Build {
  training_type : string;
  duration : Q;
  distance : Q;
  speed : Q;
  calories : Q
}.

Definition MSG : string :=
  "Тип тренировки: {training_type}; "
  ++ "Длительность: {duration:.3f} ч.; "
  ++ "Дистанция: {distance:.3f} км; "
  ++ "Ср. скорость: {speed:.3f} км/ч; "
  ++ "Потрачено ккал: {calories:.3f}.".

(** [dataclasses.asdict]: the fields by name, in declaration order. *)
Definition asdict (self : t) : list (string * value) :=
  [ ("training_type", VStr (training_type self));
    ("duration", VNum (duration self));
    ("distance", VNum (distance self));
    ("speed", VNum (speed self));
    ("calories", VNum (calories self)) ].

Definition get_message (self : t) : result string :=
  format MSG (asdict self).

End InfoMessage.

(** ** The training classes *)

Inductive pyclass : Type :=
| cTraining
| cRunning
| cSportsWalking
| cSwimming.

(** [cls.__name__]. *)
Definition class_name (c : pyclass) : string :=
  match c with
  | cTraining => "Training"
  | cRunning => "Running"
  | cSportsWalking => "SportsWalking"
  | cSwimming => "Swimming"
  end.

(** An instance: its class and the attributes set by [__init__]. *)
Inductive training : Type :=
| Training (action duration weight : Q)
| Running (action duration weight : Q)
| SportsWalking (action duration weight height : Q)
| Swimming (action duration weight length_pool count_pool : Q).

(** [type(self)]. *)
Definition type_of (self : training) : pyclass :=
  match self with
  | Training _ _ _ => cTraining
  | Running _ _ _ => cRunning
  | SportsWalking _ _ _ _ => cSportsWalking
  | Swimming _ _ _ _ _ => cSwimming
  end.

(** Instance attributes.  The three attributes of [Training.__init__] exist
    on every instance; reading one of the others on an instance that lacks
    it raises [AttributeError]. *)
Definition action (self : training) : Q :=
  match self with
  | Training a _ _ | Running a _ _ | SportsWalking a _ _ _
  | Swimming a _ _ _ _ => a
  end.

Definition duration (self : training) : Q :=
  match self with
  | Training _ d _ | Running _ d _ | SportsWalking _ d _ _
  | Swimming _ d _ _ _ => d
  end.

Definition weight (self : training) : Q :=
  match self with
  | Training _ _ w | Running _ _ w | SportsWalking _ _ w _
  | Swimming _ _ w _ _ => w
  end.

Definition height (self : training) : result Q :=
  match self with
  | SportsWalking _ _ _ h => Ok h
  | _ => Raise (AttributeError "height")
  end.

Definition length_pool (self : training) : result Q :=
  match self with
  | Swimming _ _ _ l _ => Ok l
  | _ => Raise (AttributeError "length_pool")
  end.

Definition count_pool (self : training) : result Q :=
  match self with
  | Swimming _ _ _ _ c => Ok c
  | _ => Raise (AttributeError "count_pool")
  end.

(** Class attributes, looked up through the class of [self]: [Swimming]
    overrides [LEN_STEP], the other classes inherit it from [Training]. *)
Definition LEN_STEP (self : training) : Q :=
  match type_of self with
  | cSwimming => 1.38
  | _ => 0.65
  end.

Definition M_IN_KM (self : training) : Q := 1000.0.
Definition MIN_IN_H (self : training) : Q := 60.0.

(** Attributes of [Running]. *)
Definition CALORIES_MEAN_SPEED_MULTIPLIER : Q := 18.0.
Definition CALORIES_MEAN_SPEED_SHIFT : Q := 1.79.

(** Attributes of [SportsWalking]. *)
Definition CALORIES_WEIGHT_MULTIPLIER : Q := 0.035.
Definition CALORIES_SPEED_HEIGHT_MULTIPLIER : Q := 0.029.
Definition KMH_IN_MSEC : Q := 0.278.
Definition CM_IN_M : Q := 100.0.

(** Attributes of [Swimming]. *)
Definition EXTRA_MEAN_SPEED : Q := 1.1.
Definition MEAN_SPEED_MULTIPLIER : Q := 2.0.

(** *** Methods of [Training] *)

Definition Training_get_distance (self : training) : result Q :=
  truediv (action self * LEN_STEP self) (M_IN_KM self).

(** No class overrides [get_distance]. *)
Definition get_distance (self : training) : result Q :=
  Training_get_distance self.

Definition Training_get_mean_speed (self : training) : result Q :=
  dist <- get_distance self ;;
  truediv dist (duration self).

Definition Training_get_spent_calories (self : training) : result Q :=
  Raise NotImplementedError.

(** *** Methods of [Swimming] *)

Definition Swimming_get_mean_speed (self : training) : result Q :=
  len <- length_pool self ;;
  cnt <- count_pool self ;;
  in_km <- truediv (len * cnt) (M_IN_KM self) ;;
  truediv in_km (duration self).

(** [self.get_mean_speed()]: [Swimming] overrides the method. *)
Definition get_mean_speed (self : training) : result Q :=
  match type_of self with
  | cSwimming => Swimming_get_mean_speed self
  | _ => Training_get_mean_speed self
  end.

Definition Swimming_get_spent_calories (self : training) : result Q :=
  v <- get_mean_speed self ;;
  let mean_speed := v + EXTRA_MEAN_SPEED in
  Ok (mean_speed * MEAN_SPEED_MULTIPLIER * weight self * duration self).

(** *** Methods of [Running] *)

Definition Running_get_spent_calories (self : training) : result Q :=
  v <- get_mean_speed self ;;
  w <- truediv (weight self) (M_IN_KM self) ;;
  Ok ((CALORIES_MEAN_SPEED_MULTIPLIER * v + CALORIES_MEAN_SPEED_SHIFT)
      * w
      * (duration self * MIN_IN_H self)).

(** *** Methods of [SportsWalking] *)

Definition SportsWalking_get_spent_calories (self : training) : result Q :=
  v <- get_mean_speed self ;;
  h <- height self ;;
  h_m <- truediv h CM_IN_M ;;
  ratio <- truediv ((v * KMH_IN_MSEC) ^ 2) h_m ;;
  Ok ((CALORIES_WEIGHT_MULTIPLIER * weight self
       + ratio * CALORIES_SPEED_HEIGHT_MULTIPLIER * weight self)
      * duration self * MIN_IN_H self).

(** [self.get_spent_calories()]: every subclass overrides the method. *)
Definition get_spent_calories (self : training) : result Q :=
  match type_of self with
  | cTraining => Training_get_spent_calories self
  | cRunning => Running_get_spent_calories self
  | cSportsWalking => SportsWalking_get_spent_calories self
  | cSwimming => Swimming_get_spent_calories self
  end.

(** [show_training_info] is inherited by every class; the keyword arguments
    of [InfoMessage] are evaluated from left to right. *)
Definition show_training_info (self : training) : result InfoMessage.t :=
  let name := class_name (type_of self) in
  let dur := duration self in
  dist <- get_distance self ;;
  spd <- get_mean_speed self ;;
  cal <- get_spent_calories self ;;
  Ok (InfoMessage.Build name dur dist spd cal).

(** ** The factory [read_package] *)

(** Calling a class with an unpacked list: the elements are bound, in order,
    to the parameters of [__init__]; a list of the wrong length raises
    [TypeError]. *)
Definition call (cls : pyclass) (args : list Q) : result training :=
  match cls, args with
  | cTraining, [a; d; w] => Ok (Training a d w)
  | cRunning, [a; d; w] => Ok (Running a d w)
  | cSportsWalking, [a; d; w; h] => Ok (SportsWalking a d w h)
  | cSwimming, [a; d; w; l; c] => Ok (Swimming a d w l c)
  | _, _ => Raise TypeError
  end.

Definition WORKOUT_TO_CLASS : list (string * pyclass) :=
  [ ("SWM", cSwimming); ("RUN", cRunning); ("WLK", cSportsWalking) ].

Definition unknown_code_message (workout_type : string) : string :=
  "«" ++ workout_type ++ "» - от датчиков устройства "
  ++ "получен неизвестный код тренировки.".

Definition read_package (workout_type : string) (data : list Q)
  : result training :=
  try_except_ValueError
    (cls <- getitem WORKOUT_TO_CLASS workout_type ;; call cls data)
    (fun _ => Raise (ValueError (unknown_code_message workout_type))).

(** [main] prints the message; the model returns the printed line. *)
Definition main (t : training) : result string :=
  info <- show_training_info t ;;
  InfoMessage.get_message info.

(** The number of positional parameters of [__init__], [self] apart. *)
Definition arity (cls : pyclass) : nat :=
  match cls with
  | cTraining | cRunning => 3
  | cSportsWalking => 4
  | cSwimming => 5
  end.

(** The packages of the module's entry point. *)
Definition packages : list (string * list Q) :=
  [ ("SWM", [720; 1; 80; 25; 40]);
    ("RUN", [15000; 1; 75]);
    ("WLK", [9000; 1; 75; 180]) ].

Definition run_packages : list (result string) :=
  map (fun '(workout_type, data) =>
         t <- read_package workout_type data ;; main t) packages.

(** ** The module at run time

    The same classes and functions over the numbers of the run time: an
    attribute is the [int] or the [float] received, the arithmetic is that
    of binary64, the conversion of an [int] that is too large and a square
    out of range raise [OverflowError].  Every division of the source has a
    [float] on one side, so that the other operand is converted and the
    quotient is that of two floats. *)

Module Runtime.

(** [a / b] on two floats. *)
Definition truediv (a b : spec_float) : result spec_float :=
  if B64.is_zero b then Raise ZeroDivisionError else Ok (a / b)%b64.

(** [x * y] on two numbers: exact on two [int]s, in binary64 otherwise. *)
Definition mul (x y : number) : result number :=
  match x, y with
  | PyInt a, PyInt b => Ok (PyInt (a * b))
  | _, _ =>
      a <- to_float x ;;
      b <- to_float y ;;
      Ok (PyFloat (a * b)%b64)
  end.

(** [x ** 2] on a float: the product, taken as correctly rounded;
    [OverflowError] when the square of a finite number is out of range. *)
Definition square (x : spec_float) : result spec_float :=
  match x with
  | S754_nan => Ok S754_nan
  | S754_infinity _ => Ok (S754_infinity false)
  | _ =>
      match (x * x)%b64 with
      | S754_infinity _ => Raise OverflowError
      | p => Ok p
      end
  end.

Definition MSG : string := InfoMessage.MSG.

Module InfoMessage.

Record t : Type := Build {
  training_type : string;
  duration : number;
  distance : number;
  speed : number;
  calories : number
}.

Definition asdict (self : t) : list (string * value) :=
  [ ("training_type", VStr (training_type self));
    ("duration", VNumber (duration self));
    ("distance", VNumber (distance self));
    ("speed", VNumber (speed self));
    ("calories", VNumber (calories self)) ].

Definition get_message (self : t) : result string :=
  format MSG (asdict self).

End InfoMessage.

Inductive training : Type :=
| Training (action duration weight : number)
| Running (action duration weight : number)
| SportsWalking (action duration weight height : number)
| Swimming (action duration weight length_pool count_pool : number).

Definition type_of (self : training) : pyclass :=
  match self with
  | Training _ _ _ => cTraining
  | Running _ _ _ => cRunning
  | SportsWalking _ _ _ _ => cSportsWalking
  | Swimming _ _ _ _ _ => cSwimming
  end.

Definition action (self : training) : number :=
  match self with
  | Training a _ _ | Running a _ _ | SportsWalking a _ _ _
  | Swimming a _ _ _ _ => a
  end.

Definition duration (self : training) : number :=
  match self with
  | Training _ d _ | Running _ d _ | SportsWalking _ d _ _
  | Swimming _ d _ _ _ => d
  end.

Definition weight (self : training) : number :=
  match self with
  | Training _ _ w | Running _ _ w | SportsWalking _ _ w _
  | Swimming _ _ w _ _ => w
  end.

Definition height (self : training) : result number :=
  match self with
  | SportsWalking _ _ _ h => Ok h
  | _ => Raise (AttributeError "height")
  end.

Definition length_pool (self : training) : result number :=
  match self with
  | Swimming _ _ _ l _ => Ok l
  | _ => Raise (AttributeError "length_pool")
  end.

Definition count_pool (self : training) : result number :=
  match self with
  | Swimming _ _ _ _ c => Ok c
  | _ => Raise (AttributeError "count_pool")
  end.

Definition LEN_STEP (self : training) : spec_float :=
  match type_of self with
  | cSwimming => B64.lit 1.38
  | _ => B64.lit 0.65
  end.

Definition M_IN_KM : spec_float := B64.lit 1000.0.
Definition MIN_IN_H : spec_float := B64.lit 60.0.
Definition CALORIES_MEAN_SPEED_MULTIPLIER : spec_float := B64.lit 18.0.
Definition CALORIES_MEAN_SPEED_SHIFT : spec_float := B64.lit 1.79.
Definition CALORIES_WEIGHT_MULTIPLIER : spec_float := B64.lit 0.035.
Definition CALORIES_SPEED_HEIGHT_MULTIPLIER : spec_float := B64.lit 0.029.
Definition KMH_IN_MSEC : spec_float := B64.lit 0.278.
Definition CM_IN_M : spec_float := B64.lit 100.0.
Definition EXTRA_MEAN_SPEED : spec_float := B64.lit 1.1.
Definition MEAN_SPEED_MULTIPLIER : spec_float := B64.lit 2.0.

(** [Training.get_distance], which no class overrides. *)
Definition get_distance (self : training) : result spec_float :=
  a <- to_float (action self) ;;
  truediv (a * LEN_STEP self)%b64 M_IN_KM.

Definition Training_get_mean_speed (self : training) : result spec_float :=
  dist <- get_distance self ;;
  d <- to_float (duration self) ;;
  truediv dist d.

Definition Swimming_get_mean_speed (self : training) : result spec_float :=
  len <- length_pool self ;;
  cnt <- count_pool self ;;
  swum <- mul len cnt ;;
  swum_f <- to_float swum ;;
  in_km <- truediv swum_f M_IN_KM ;;
  d <- to_float (duration self) ;;
  truediv in_km d.

Definition get_mean_speed (self : training) : result spec_float :=
  match type_of self with
  | cSwimming => Swimming_get_mean_speed self
  | _ => Training_get_mean_speed self
  end.

Definition Running_get_spent_calories (self : training)
  : result spec_float :=
  v <- get_mean_speed self ;;
  w <- to_float (weight self) ;;
  w_k <- truediv w M_IN_KM ;;
  d <- to_float (duration self) ;;
  Ok ((CALORIES_MEAN_SPEED_MULTIPLIER * v + CALORIES_MEAN_SPEED_SHIFT)
      * w_k
      * (d * MIN_IN_H))%b64.

(** The product [CALORIES_WEIGHT_MULTIPLIER * self.weight] is evaluated
    before [self.get_mean_speed()] is called. *)
Definition SportsWalking_get_spent_calories (self : training)
  : result spec_float :=
  w <- to_float (weight self) ;;
  v <- get_mean_speed self ;;
  sq <- square (v * KMH_IN_MSEC)%b64 ;;
  h <- height self ;;
  h_f <- to_float h ;;
  h_m <- truediv h_f CM_IN_M ;;
  ratio <- truediv sq h_m ;;
  d <- to_float (duration self) ;;
  Ok ((CALORIES_WEIGHT_MULTIPLIER * w
       + ratio * CALORIES_SPEED_HEIGHT_MULTIPLIER * w)
      * d * MIN_IN_H)%b64.

Definition Swimming_get_spent_calories (self : training)
  : result spec_float :=
  v <- get_mean_speed self ;;
  let mean_speed := (v + EXTRA_MEAN_SPEED)%b64 in
  w <- to_float (weight self) ;;
  d <- to_float (duration self) ;;
  Ok (mean_speed * MEAN_SPEED_MULTIPLIER * w * d)%b64.

Definition get_spent_calories (self : training) : result spec_float :=
  match type_of self with
  | cTraining => Raise NotImplementedError
  | cRunning => Running_get_spent_calories self
  | cSportsWalking => SportsWalking_get_spent_calories self
  | cSwimming => Swimming_get_spent_calories self
  end.

Definition show_training_info (self : training) : result InfoMessage.t :=
  let name := class_name (type_of self) in
  let dur := duration self in
  dist <- get_distance self ;;
  spd <- get_mean_speed self ;;
  cal <- get_spent_calories self ;;
  Ok (InfoMessage.Build name dur (PyFloat dist) (PyFloat spd) (PyFloat cal)).

Definition call (cls : pyclass) (args : list number) : result training :=
  match cls, args with
  | cTraining, [a; d; w] => Ok (Training a d w)
  | cRunning, [a; d; w] => Ok (Running a d w)
  | cSportsWalking, [a; d; w; h] => Ok (SportsWalking a d w h)
  | cSwimming, [a; d; w; l; c] => Ok (Swimming a d w l c)
  | _, _ => Raise TypeError
  end.

Definition read_package (workout_type : string) (data : list number)
  : result training :=
  try_except_ValueError
    (cls <- getitem WORKOUT_TO_CLASS workout_type ;; call cls data)
    (fun _ => Raise (ValueError (unknown_code_message workout_type))).

Definition main (t : training) : result string :=
  info <- show_training_info t ;;
  InfoMessage.get_message info.

(** One turn of the loop of the entry point. *)
Definition process (pkg : string * list number) : result string :=
  t <- read_package (fst pkg) (snd pkg) ;;
  main t.

(** The loop of the entry point over a list of packages: the lines printed,
    and the exception that ends the program when a package fails. *)
Fixpoint run_loop (pkgs : list (string * list number))
  : list string * option exn :=
  match pkgs with
  | [] => ([], None)
  | pkg :: rest =>
      match process pkg with
      | Ok line =>
          let (printed, err) := run_loop rest in (line :: printed, err)
      | Raise e => ([], Some e)
      end
  end.

Definition packages : list (string * list number) :=
  [ ("SWM", [PyInt 720; PyInt 1; PyInt 80; PyInt 25; PyInt 40]);
    ("RUN", [PyInt 15000; PyInt 1; PyInt 75]);
    ("WLK", [PyInt 9000; PyInt 1; PyInt 75; PyInt 180]) ].

End Runtime.

(** * Properties *)

(** ** Results and division *)

Lemma returns_Ok (v q : Q) : v == q -> returns (Ok v) q.
Proof. intros H. exists v. split; [reflexivity | exact H]. Qed.


Lemma truediv_nonzero (x y : Q) : ~ y == 0 -> truediv x y = Ok (x / y).
Proof.
  intros H. unfold truediv.
  destruct (Qeq_bool y 0) eqn:E; [|reflexivity].
  apply Qeq_bool_eq in E. contradiction.
Qed.

Lemma truediv_pos (x y : Q) : 0 < y -> truediv x y = Ok (x / y).
Proof.
  intros H. apply truediv_nonzero. intros E. rewrite E in H.
  exact (Qlt_irrefl 0 H).
Qed.

Lemma truediv_zero (x y : Q) : y == 0 -> truediv x y = Raise ZeroDivisionError.
Proof.
  intros H. unfold truediv.
  apply Qeq_eq_bool in H. rewrite H. reflexivity.
Qed.

Lemma truediv_M_IN_KM (x : Q) (self : training) :
  truediv x (M_IN_KM self) = Ok (x / 1000.0).
Proof. reflexivity. Qed.

Lemma truediv_CM_IN_M (x : Q) : truediv x CM_IN_M = Ok (x / 100.0).
Proof. reflexivity. Qed.

(** ** Distance and mean speed *)

Lemma get_distance_eq (self : training) :
  get_distance self = Ok (action self * LEN_STEP self / 1000.0).
Proof. reflexivity. Qed.

Lemma Training_get_mean_speed_eq (self : training) :
  0 < duration self ->
  Training_get_mean_speed self
  = Ok (action self * LEN_STEP self / 1000.0 / duration self).
Proof.
  intros Hd. unfold Training_get_mean_speed.
  rewrite get_distance_eq. cbn [bind].
  apply truediv_pos, Hd.
Qed.

Lemma Swimming_get_mean_speed_eq (a d w l c : Q) :
  0 < d ->
  get_mean_speed (Swimming a d w l c) = Ok (l * c / 1000.0 / d).
Proof.
  intros Hd. unfold get_mean_speed, Swimming_get_mean_speed.
  cbn [type_of length_pool count_pool bind].
  rewrite truediv_M_IN_KM. cbn [bind duration].
  apply truediv_pos, Hd.
Qed.

(** C3.  A [Running] or [SportsWalking] instance with a positive duration
    covers [action * 0.65 / 1000] km, and its mean speed is that distance
    divided by the duration. *)
Theorem step_distance_and_mean_speed (self : training) :
  type_of self = cRunning \/ type_of self = cSportsWalking ->
  0 < duration self ->
  exists dist,
    get_distance self = Ok dist
    /\ dist == action self * 0.65 / 1000
    /\ returns (get_mean_speed self) (dist / duration self).
Proof.
  intros Hk Hd.
  exists (action self * LEN_STEP self / 1000.0).
  split; [apply get_distance_eq|].
  assert (HL : LEN_STEP self = 0.65)
    by (unfold LEN_STEP; destruct Hk as [-> | ->]; reflexivity).
  assert (HS : get_mean_speed self = Training_get_mean_speed self)
    by (unfold get_mean_speed; destruct Hk as [-> | ->]; reflexivity).
  split.
  - rewrite HL. field.
  - rewrite HS, Training_get_mean_speed_eq by exact Hd.
    apply returns_Ok. reflexivity.
Qed.

Lemma step_distance_and_mean_speed_witness :
  exists dist,
    get_distance (SportsWalking 9000 1 75 180) = Ok dist
    /\ dist == 9000 * 0.65 / 1000
    /\ returns (get_mean_speed (SportsWalking 9000 1 75 180)) (dist / 1).
Proof.
  apply (step_distance_and_mean_speed (SportsWalking 9000 1 75 180)).
  - right. reflexivity.
  - reflexivity.
Defined.



(** ** Spent calories *)

Lemma Qdiv_pos (x y : Q) : 0 < x -> 0 < y -> 0 < x / y.
Proof.
  intros Hx Hy. unfold Qdiv.
  apply Qmult_lt_0_compat; [exact Hx | apply Qinv_lt_0_compat, Hy].
Qed.

Lemma Running_get_spent_calories_eq (self : training) (v : Q) :
  get_mean_speed self = Ok v ->
  Running_get_spent_calories self
  = Ok ((18.0 * v + 1.79) * (weight self / 1000.0) * (duration self * 60.0)).
Proof.
  intros Hv. unfold Running_get_spent_calories.
  rewrite Hv. cbn [bind]. rewrite truediv_M_IN_KM. reflexivity.
Qed.

Lemma SportsWalking_get_spent_calories_eq (a d w h v : Q) :
  get_mean_speed (SportsWalking a d w h) = Ok v ->
  0 < h ->
  SportsWalking_get_spent_calories (SportsWalking a d w h)
  = Ok ((0.035 * w + (v * 0.278) ^ 2 / (h / 100.0) * 0.029 * w) * d * 60.0).
Proof.
  intros Hv Hh. unfold SportsWalking_get_spent_calories.
  rewrite Hv. cbn [bind height]. rewrite truediv_CM_IN_M. cbn [bind].
  rewrite truediv_pos by (apply Qdiv_pos; [exact Hh | reflexivity]).
  reflexivity.
Qed.

Lemma Swimming_get_spent_calories_eq (self : training) (v : Q) :
  get_mean_speed self = Ok v ->
  Swimming_get_spent_calories self
  = Ok ((v + 1.1) * 2.0 * weight self * duration self).
Proof.
  intros Hv. unfold Swimming_get_spent_calories.
  rewrite Hv. reflexivity.
Qed.

(** C2.  With [v] the mean speed of the instance: a [Running] instance with
    a positive duration spends
    [(18.0 * v + 1.79) * (weight / 1000) * (duration * 60)] kcal, and a
    [SportsWalking] instance with a positive duration and a positive height
    spends
    [(0.035 * weight + ((v * 0.278)^2 / (height / 100)) * 0.029 * weight)
     * duration * 60] kcal. *)
Theorem running_and_walking_calories (a d w h : Q) :
  0 < d ->
  0 < h ->
  (exists v,
      get_mean_speed (Running a d w) = Ok v
      /\ returns (get_spent_calories (Running a d w))
           ((18.0 * v + 1.79) * (w / 1000) * (d * 60)))
  /\ (exists v,
         get_mean_speed (SportsWalking a d w h) = Ok v
         /\ returns (get_spent_calories (SportsWalking a d w h))
              ((0.035 * w + ((v * 0.278) ^ 2 / (h / 100)) * 0.029 * w)
               * d * 60)).
Proof.
  intros Hd Hh.
  assert (Hd0 : ~ d == 0) by (intros E; rewrite E in Hd; exact (Qlt_irrefl 0 Hd)).
  assert (Hh0 : ~ h == 0) by (intros E; rewrite E in Hh; exact (Qlt_irrefl 0 Hh)).
  split.
  - exists (a * 0.65 / 1000.0 / d).
    assert (Hv : get_mean_speed (Running a d w) = Ok (a * 0.65 / 1000.0 / d))
      by (apply (Training_get_mean_speed_eq (Running a d w)); exact Hd).
    split; [exact Hv|].
    change (get_spent_calories (Running a d w))
      with (Running_get_spent_calories (Running a d w)).
    rewrite (Running_get_spent_calories_eq _ _ Hv).
    apply returns_Ok. cbn [weight duration]. field. exact Hd0.
  - exists (a * 0.65 / 1000.0 / d).
    assert (Hv : get_mean_speed (SportsWalking a d w h)
                 = Ok (a * 0.65 / 1000.0 / d))
      by (apply (Training_get_mean_speed_eq (SportsWalking a d w h)); exact Hd).
    split; [exact Hv|].
    change (get_spent_calories (SportsWalking a d w h))
      with (SportsWalking_get_spent_calories (SportsWalking a d w h)).
    rewrite (SportsWalking_get_spent_calories_eq _ _ _ _ _ Hv Hh).
    apply returns_Ok. field. split; assumption.
Qed.

Lemma running_and_walking_calories_witness :
  0 < 1 /\ 0 < 180
  /\ (exists v,
         get_mean_speed (Running 15000 1 75) = Ok v
         /\ returns (get_spent_calories (Running 15000 1 75))
              ((18.0 * v + 1.79) * (75 / 1000) * (1 * 60)))
  /\ (exists v,
         get_mean_speed (SportsWalking 15000 1 75 180) = Ok v
         /\ returns (get_spent_calories (SportsWalking 15000 1 75 180))
              ((0.035 * 75 + ((v * 0.278) ^ 2 / (180 / 100)) * 0.029 * 75)
               * 1 * 60)).
Proof.
  split; [reflexivity|]. split; [reflexivity|].
  apply (running_and_walking_calories 15000 1 75 180); reflexivity.
Defined.

Lemma Qdiv_nonneg (x y : Q) : 0 <= x -> 0 < y -> 0 <= x / y.
Proof.
  intros Hx Hy. unfold Qdiv.
  apply Qmult_le_0_compat; [exact Hx | apply Qinv_le_0_compat, Qlt_le_weak, Hy].
Qed.

Lemma Qsquare_nonneg (x : Q) : 0 <= x ^ 2.
Proof.
  assert (E : x ^ 2 == x * x) by (simpl; reflexivity).
  rewrite E.
  destruct (Qlt_le_dec x 0) as [Hneg | Hpos].
  - setoid_replace (x * x) with ((- x) * (- x)) by ring.
    apply Qmult_le_0_compat; lra.
  - apply Qmult_le_0_compat; exact Hpos.
Qed.

(** C9.  For an instance of one of the three concrete classes with a
    positive weight, a positive duration, a non-negative mean speed and, for
    [SportsWalking], a positive height, [get_spent_calories] returns a
    non-negative number. *)
Theorem spent_calories_nonneg (self : training) (v : Q) :
  type_of self <> cTraining ->
  0 < weight self ->
  0 < duration self ->
  (forall h, height self = Ok h -> 0 < h) ->
  get_mean_speed self = Ok v ->
  0 <= v ->
  exists cal, get_spent_calories self = Ok cal /\ 0 <= cal.
Proof.
  intros Hc Hw Hd Hh Hv Hv0.
  destruct self as [a d w | a d w | a d w h | a d w l c];
    cbn [weight duration] in Hw, Hd.
  - exfalso. apply Hc. reflexivity.
  - change (get_spent_calories (Running a d w))
      with (Running_get_spent_calories (Running a d w)).
    rewrite (Running_get_spent_calories_eq _ _ Hv).
    eexists. split; [reflexivity|]. cbn [weight duration].
    apply Qmult_le_0_compat; [apply Qmult_le_0_compat|].
    + lra.
    + apply Qdiv_nonneg; [lra | reflexivity].
    + lra.
  - assert (Hh' : 0 < h) by (apply Hh; reflexivity).
    change (get_spent_calories (SportsWalking a d w h))
      with (SportsWalking_get_spent_calories (SportsWalking a d w h)).
    rewrite (SportsWalking_get_spent_calories_eq _ _ _ _ _ Hv Hh').
    eexists. split; [reflexivity|].
    assert (Hr : 0 <= (v * 0.278) ^ 2 / (h / 100.0)).
    { apply Qdiv_nonneg; [apply Qsquare_nonneg|].
      apply Qdiv_pos; [exact Hh' | reflexivity]. }
    set (ratio := (v * 0.278) ^ 2 / (h / 100.0)) in *.
    assert (H1 : 0 <= ratio * 0.029)
      by (apply Qmult_le_0_compat; [exact Hr | discriminate]).
    assert (H2 : 0 <= ratio * 0.029 * w)
      by (apply Qmult_le_0_compat; [exact H1 | lra]).
    apply Qmult_le_0_compat; [apply Qmult_le_0_compat|]; lra.
  - change (get_spent_calories (Swimming a d w l c))
      with (Swimming_get_spent_calories (Swimming a d w l c)).
    rewrite (Swimming_get_spent_calories_eq _ _ Hv).
    eexists. split; [reflexivity|]. cbn [weight duration].
    assert (H1 : 0 <= (v + 1.1) * 2.0) by (apply Qmult_le_0_compat; lra).
    apply Qmult_le_0_compat; [apply Qmult_le_0_compat|]; lra.
Qed.

Lemma spent_calories_nonneg_witness :
  exists cal,
    get_spent_calories (SportsWalking 9000 1 75 180) = Ok cal /\ 0 <= cal.
Proof.
  apply (spent_calories_nonneg (SportsWalking 9000 1 75 180)
           (9000 * 0.65 / 1000.0 / 1)).
  - discriminate.
  - reflexivity.
  - reflexivity.
  - intros h E. injection E as <-. reflexivity.
  - reflexivity.
  - discriminate.
Defined.

(** ** The factory *)

Lemma getitem_WORKOUT_TO_CLASS_unknown (workout_type : string) :
  workout_type <> "SWM" -> workout_type <> "RUN" -> workout_type <> "WLK" ->
  getitem WORKOUT_TO_CLASS workout_type = Raise (KeyError workout_type).
Proof.
  intros Hs Hr Hw. unfold WORKOUT_TO_CLASS. cbn [getitem].
  destruct (String.eqb_spec "SWM" workout_type) as [E | _];
    [symmetry in E; contradiction|].
  destruct (String.eqb_spec "RUN" workout_type) as [E | _];
    [symmetry in E; contradiction|].
  destruct (String.eqb_spec "WLK" workout_type) as [E | _];
    [symmetry in E; contradiction|].
  reflexivity.
Qed.

Lemma getitem_WORKOUT_TO_CLASS_known (workout_type : string) (cls : pyclass) :
  getitem WORKOUT_TO_CLASS workout_type = Ok cls ->
  (workout_type = "SWM" /\ cls = cSwimming)
  \/ (workout_type = "RUN" /\ cls = cRunning)
  \/ (workout_type = "WLK" /\ cls = cSportsWalking).
Proof.
  unfold WORKOUT_TO_CLASS. cbn [getitem].
  destruct (String.eqb_spec "SWM" workout_type) as [<- | _];
    [intros [= <-]; left; split; reflexivity|].
  destruct (String.eqb_spec "RUN" workout_type) as [<- | _];
    [intros [= <-]; right; left; split; reflexivity|].
  destruct (String.eqb_spec "WLK" workout_type) as [<- | _];
    [intros [= <-]; right; right; split; reflexivity|].
  discriminate.
Qed.

Lemma call_never_ValueError (cls : pyclass) (args : list Q) (msg : string) :
  call cls args <> Raise (ValueError msg).
Proof.
  destruct cls; destruct args as [|a [|d [|w [|h [|c [|x rest]]]]]];
    discriminate.
Qed.

(** The handler of [read_package] is never entered: neither the lookup in
    [WORKOUT_TO_CLASS] nor the call of a class raises [ValueError]. *)
Lemma read_package_handler_unreachable (workout_type : string) (data : list Q) :
  read_package workout_type data
  = (cls <- getitem WORKOUT_TO_CLASS workout_type ;; call cls data).
Proof.
  unfold read_package.
  destruct (getitem WORKOUT_TO_CLASS workout_type) as [cls | e] eqn:Hget.
  - cbn [bind]. pose proof (call_never_ValueError cls data) as Hcall.
    destruct (call cls data) as [t | [ | | | msg | | | | ]]; try reflexivity.
    exfalso. apply (Hcall msg). reflexivity.
  - cbn [bind].
    unfold WORKOUT_TO_CLASS in Hget. cbn [getitem] in Hget.
    destruct (String.eqb "SWM" workout_type); [discriminate|].
    destruct (String.eqb "RUN" workout_type); [discriminate|].
    destruct (String.eqb "WLK" workout_type); [discriminate|].
    injection Hget as <-. reflexivity.
Qed.

Lemma call_arity (cls : pyclass) (args : list Q) :
  (length args <> arity cls -> call cls args = Raise TypeError)
  /\ (length args = arity cls ->
      exists t, call cls args = Ok t /\ type_of t = cls).
Proof.
  destruct cls; destruct args as [|a [|d [|w [|h [|c [|x rest]]]]]];
    cbn [length arity call]; split; intros H;
    try reflexivity; try discriminate H; try (exfalso; apply H; reflexivity);
    try (eexists; split; reflexivity).
Qed.

(** C5.  For a code other than [SWM], [RUN] and [WLK], whatever the data,
    [read_package] lets the [KeyError] of the dictionary lookup escape,
    with the offending code as its argument.  It does not raise the
    [ValueError] that its handler words for an unknown code: the handler
    catches [ValueError] only, and is never entered. *)
Theorem read_package_unknown_code (workout_type : string) (data : list Q) :
  workout_type <> "SWM" -> workout_type <> "RUN" -> workout_type <> "WLK" ->
  read_package workout_type data = Raise (KeyError workout_type)
  /\ read_package workout_type data
     <> Raise (ValueError (unknown_code_message workout_type)).
Proof.
  intros Hs Hr Hw.
  rewrite read_package_handler_unreachable.
  rewrite getitem_WORKOUT_TO_CLASS_unknown by assumption.
  split; [reflexivity | discriminate].
Qed.

Lemma read_package_unknown_code_witness :
  read_package "XYZ" [720; 1; 80] = Raise (KeyError "XYZ")
  /\ read_package "XYZ" [720; 1; 80]
     <> Raise (ValueError (unknown_code_message "XYZ")).
Proof.
  apply (read_package_unknown_code "XYZ" [720; 1; 80]); discriminate.
Defined.

(** C6, as the code has it.  For a recognized code, [read_package] fails
    (with [TypeError]) exactly when the length of the data differs from the
    number of parameters of the class; data of the right length always
    yield an instance of the class, whatever the numbers. *)
Theorem read_package_arity
    (workout_type : string) (cls : pyclass) (data : list Q) :
  getitem WORKOUT_TO_CLASS workout_type = Ok cls ->
  (length data <> arity cls -> read_package workout_type data = Raise TypeError)
  /\ (length data = arity cls ->
      exists t, read_package workout_type data = Ok t /\ type_of t = cls).
Proof.
  intros Hget.
  rewrite read_package_handler_unreachable, Hget. cbn [bind].
  apply call_arity.
Qed.

Lemma read_package_arity_witness :
  read_package "WLK" [9000; 1; 75] = Raise TypeError
  /\ exists t,
       read_package "WLK" [9000; 1; 75; 180] = Ok t
       /\ type_of t = cSportsWalking.
Proof.
  split.
  - apply (read_package_arity "WLK" cSportsWalking [9000; 1; 75]);
      [reflexivity | discriminate].
  - apply (read_package_arity "WLK" cSportsWalking [9000; 1; 75; 180]);
      reflexivity.
Defined.

(** C6, as stated, fails: a zero duration and a negative weight are
    accepted by the factory. *)
Lemma read_package_accepts_invalid_numbers :
  read_package "RUN" [15000; 0; -75] = Ok (Running 15000 0 (-75))
  /\ duration (Running 15000 0 (-75)) == 0
  /\ weight (Running 15000 0 (-75)) < 0.
Proof. repeat split. Qed.

(** ** Zero divisors *)

Lemma get_mean_speed_zero_duration (self : training) :
  duration self == 0 -> get_mean_speed self = Raise ZeroDivisionError.
Proof.
  intros Hd.
  destruct self as [a d w | a d w | a d w h | a d w l c];
    unfold get_mean_speed; cbn [type_of];
    unfold Training_get_mean_speed, Swimming_get_mean_speed;
    rewrite ?get_distance_eq;
    cbn [bind length_pool count_pool]; rewrite ?truediv_M_IN_KM; cbn [bind];
    apply truediv_zero, Hd.
Qed.

Lemma SportsWalking_zero_height (a d w h : Q) :
  h == 0 ->
  get_spent_calories (SportsWalking a d w h) = Raise ZeroDivisionError.
Proof.
  intros Hh.
  change (get_spent_calories (SportsWalking a d w h))
    with (SportsWalking_get_spent_calories (SportsWalking a d w h)).
  unfold SportsWalking_get_spent_calories.
  destruct (get_mean_speed (SportsWalking a d w h)) as [v | e] eqn:Hv.
  - cbn [bind height]. rewrite truediv_CM_IN_M. cbn [bind].
    rewrite truediv_zero; [reflexivity|].
    rewrite Hh. reflexivity.
  - cbn [bind].
    unfold get_mean_speed, Training_get_mean_speed in Hv.
    cbn [type_of] in Hv. rewrite get_distance_eq in Hv. cbn [bind] in Hv.
    unfold truediv in Hv.
    destruct (Qeq_bool (duration (SportsWalking a d w h)) 0);
      [injection Hv as <-; reflexivity | discriminate].
Qed.

Lemma get_spent_calories_zero_duration (self : training) :
  type_of self <> cTraining ->
  duration self == 0 ->
  get_spent_calories self = Raise ZeroDivisionError.
Proof.
  intros Hc Hd. pose proof (get_mean_speed_zero_duration self Hd) as Hv.
  destruct self as [a d w | a d w | a d w h | a d w l c];
    [exfalso; apply Hc; reflexivity | | | ];
    unfold get_spent_calories; cbn [type_of];
    unfold Running_get_spent_calories, SportsWalking_get_spent_calories,
      Swimming_get_spent_calories;
    rewrite Hv; reflexivity.
Qed.

(** C7, as the code has it.  On an instance of a concrete class whose
    duration is zero, or whose height (for [SportsWalking]) is zero, the
    division fault itself escapes: [get_spent_calories] and
    [show_training_info] raise [ZeroDivisionError], and so does
    [get_mean_speed] when the duration is zero. *)
Theorem zero_divisor_raises_ZeroDivisionError (self : training) :
  type_of self <> cTraining ->
  duration self == 0 \/ (exists h, height self = Ok h /\ h == 0) ->
  get_spent_calories self = Raise ZeroDivisionError
  /\ show_training_info self = Raise ZeroDivisionError
  /\ (duration self == 0 -> get_mean_speed self = Raise ZeroDivisionError).
Proof.
  intros Hc Hz.
  assert (Hcal : get_spent_calories self = Raise ZeroDivisionError).
  { destruct Hz as [Hd | [h [Hh Hh0]]].
    - apply get_spent_calories_zero_duration; assumption.
    - destruct self as [a d w | a d w | a d w h' | a d w l c];
        try discriminate Hh.
      injection Hh as ->. apply SportsWalking_zero_height, Hh0. }
  split; [exact Hcal|]. split; [|apply get_mean_speed_zero_duration].
  unfold show_training_info. rewrite get_distance_eq. cbn [bind].
  destruct (get_mean_speed self) as [v | e] eqn:Hv.
  - cbn [bind]. rewrite Hcal. reflexivity.
  - cbn [bind].
    destruct self as [a d w | a d w | a d w h | a d w l c];
      unfold get_mean_speed in Hv; cbn [type_of] in Hv;
      unfold Training_get_mean_speed, Swimming_get_mean_speed in Hv;
      rewrite ?get_distance_eq in Hv;
      cbn [bind length_pool count_pool] in Hv;
      rewrite ?truediv_M_IN_KM in Hv; cbn [bind] in Hv;
      unfold truediv in Hv;
      match type of Hv with
      | (if ?b then _ else _) = _ => destruct b
      end;
      first [injection Hv as <-; reflexivity | discriminate].
Qed.

Lemma zero_divisor_raises_ZeroDivisionError_witness :
  get_spent_calories (SportsWalking 9000 1 75 0) = Raise ZeroDivisionError
  /\ show_training_info (SportsWalking 9000 1 75 0) = Raise ZeroDivisionError
  /\ get_mean_speed (Running 15000 0 75) = Raise ZeroDivisionError.
Proof.
  destruct (zero_divisor_raises_ZeroDivisionError (SportsWalking 9000 1 75 0))
    as [Hcal [Hinfo _]].
  - discriminate.
  - right. exists 0. split; reflexivity.
  - split; [exact Hcal|]. split; [exact Hinfo|].
    apply (zero_divisor_raises_ZeroDivisionError (Running 15000 0 75)).
    + discriminate.
    + left. reflexivity.
    + reflexivity.
Defined.

(** C7, as stated, fails: with a zero duration the division fault of
    [get_mean_speed] reaches the caller, no validation error replaces it. *)
Lemma zero_duration_propagates_division_fault :
  read_package "RUN" [15000; 0; 75] = Ok (Running 15000 0 75)
  /\ get_mean_speed (Running 15000 0 75) = Raise ZeroDivisionError
  /\ get_spent_calories (Running 15000 0 75) = Raise ZeroDivisionError
  /\ main (Running 15000 0 75) = Raise ZeroDivisionError.
Proof. repeat split. Qed.

(** ** Fixed-point rendering *)

Lemma is_digit_digit_char (d : Z) :
  (0 <= d < 10)%Z ->
  is_digit (digit_char d) = true
  /\ Z.of_nat (nat_of_ascii (digit_char d)) = (48 + d)%Z.
Proof.
  intros Hd.
  assert (H : (d = 0 \/ d = 1 \/ d = 2 \/ d = 3 \/ d = 4 \/ d = 5 \/ d = 6
               \/ d = 7 \/ d = 8 \/ d = 9)%Z) by lia.
  repeat (destruct H as [-> | H]; [split; reflexivity|]).
  subst d. split; reflexivity.
Qed.

Lemma all_digits_app (s1 s2 : string) :
  all_digits (s1 ++ s2) = all_digits s1 && all_digits s2.
Proof.
  induction s1 as [|c s1 IH]; [reflexivity|].
  cbn [append all_digits]. rewrite IH. apply andb_assoc.
Qed.

Lemma digits_value_app (acc : Z) (s1 s2 : string) :
  digits_value acc (s1 ++ s2) = digits_value (digits_value acc s1) s2.
Proof.
  revert acc. induction s1 as [|c s1 IH]; intros acc; [reflexivity|].
  cbn [append digits_value]. apply IH.
Qed.

Lemma length_app (s1 s2 : string) :
  String.length (s1 ++ s2) = (String.length s1 + String.length s2)%nat.
Proof.
  induction s1 as [|c s1 IH]; [reflexivity|].
  cbn [append String.length]. rewrite IH. reflexivity.
Qed.

Lemma zfill_digits_length (width : nat) (n : Z) :
  String.length (zfill_digits width n) = width.
Proof.
  revert n. induction width as [|w IH]; intros n; [reflexivity|].
  cbn [zfill_digits]. rewrite length_app, IH. cbn [String.length]. lia.
Qed.

Lemma zfill_digits_all_digits (width : nat) (n : Z) :
  all_digits (zfill_digits width n) = true.
Proof.
  revert n. induction width as [|w IH]; intros n; [reflexivity|].
  cbn [zfill_digits]. rewrite all_digits_app, IH. cbn [all_digits andb].
  destruct (is_digit_digit_char (n mod 10)) as [-> _]; [|reflexivity].
  apply Z.mod_pos_bound. lia.
Qed.

Lemma zfill_digits_value (width : nat) (acc n : Z) :
  digits_value acc (zfill_digits width n)
  = (acc * 10 ^ Z.of_nat width + n mod 10 ^ Z.of_nat width)%Z.
Proof.
  revert acc n. induction width as [|w IH]; intros acc n.
  - cbn [zfill_digits digits_value]. change (10 ^ Z.of_nat 0)%Z with 1%Z.
    rewrite Z.mod_1_r. lia.
  - cbn [zfill_digits]. rewrite digits_value_app, IH.
    cbn [digits_value].
    destruct (is_digit_digit_char (n mod 10)) as [_ ->];
      [apply Z.mod_pos_bound; lia|].
    rewrite Nat2Z.inj_succ, Z.pow_succ_r by lia.
    assert (Hp : (0 < 10 ^ Z.of_nat w)%Z) by (apply Z.pow_pos_nonneg; lia).
    rewrite (Z.rem_mul_r n 10 (10 ^ Z.of_nat w)) by lia.
    lia.
Qed.

Lemma string_of_uint_all_digits (d : Decimal.uint) :
  all_digits (NilEmpty.string_of_uint d) = true.
Proof. induction d; cbn [NilEmpty.string_of_uint all_digits]; auto. Qed.

Lemma int_digits_all_digits (n : Z) : all_digits (int_digits n) = true.
Proof.
  unfold int_digits, NilZero.string_of_uint.
  destruct (N.to_uint (Z.to_N n)); try reflexivity;
    apply string_of_uint_all_digits.
Qed.

Lemma int_digits_nonempty (n : Z) : int_digits n <> "".
Proof.
  unfold int_digits, NilZero.string_of_uint.
  destruct (N.to_uint (Z.to_N n)); discriminate.
Qed.

Lemma int_digits_no_leading_zero (n : Z) : no_leading_zero (int_digits n).
Proof.
  unfold int_digits. set (d := N.to_uint (Z.to_N n)).
  assert (Hd : d = Decimal.unorm d).
  { unfold d. rewrite <- (DecimalN.Unsigned.of_to (Z.to_N n)) at 1.
    apply DecimalN.Unsigned.to_of. }
  rewrite Hd. unfold Decimal.unorm.
  pose proof (DecimalFacts.nzhead_nonzero d) as Hnz.
  destruct (Decimal.nzhead d) as [|u|u|u|u|u|u|u|u|u|u];
    [left; reflexivity
    | exfalso; apply (Hnz u); reflexivity
    | right; do 2 eexists; split; [reflexivity | discriminate] ..].
Qed.

Lemma of_uint_acc_value (d : Decimal.uint) (acc : positive) :
  Zpos (Pos.of_uint_acc d acc)
  = digits_value (Zpos acc) (NilEmpty.string_of_uint d).
Proof.
  revert acc.
  induction d; intros acc;
    cbn [Pos.of_uint_acc NilEmpty.string_of_uint digits_value];
    [reflexivity
    | rewrite IHd; f_equal;
      match goal with
      | |- context [Z.of_nat (nat_of_ascii ?c)] =>
          let v := eval vm_compute in (Z.of_nat (nat_of_ascii c)) in
          change (Z.of_nat (nat_of_ascii c)) with v
      end; lia ..].
Qed.

Lemma of_uint_value (d : Decimal.uint) :
  Z.of_N (Pos.of_uint d) = digits_value 0 (NilEmpty.string_of_uint d).
Proof.
  induction d;
    cbn [Pos.of_uint NilEmpty.string_of_uint digits_value Z.of_N];
    [reflexivity | exact IHd | rewrite of_uint_acc_value; reflexivity ..].
Qed.

Lemma int_digits_value (n : Z) :
  (0 <= n)%Z -> digits_value 0 (int_digits n) = n.
Proof.
  intros Hn. unfold int_digits.
  assert (E : digits_value 0 (NilZero.string_of_uint (N.to_uint (Z.to_N n)))
              = Z.of_N (N.of_uint (N.to_uint (Z.to_N n)))).
  { unfold N.of_uint. rewrite of_uint_value.
    unfold NilZero.string_of_uint.
    destruct (N.to_uint (Z.to_N n)); reflexivity. }
  rewrite E, DecimalN.Unsigned.of_to. apply Z2N.id, Hn.
Qed.

Lemma round_half_even_error (y : Q) :
  Qabs (inject_Z (round_half_even y) - y) <= 1 # 2.
Proof.
  destruct y as [n d]. unfold round_half_even. cbn [Qnum Qden].
  pose proof (Z.div_mod n (Zpos d) ltac:(discriminate)) as Hdm.
  pose proof (Z.mod_pos_bound n (Zpos d) ltac:(reflexivity)) as Hr.
  set (k := (n / Zpos d)%Z) in *. set (r := (n mod Zpos d)%Z) in *.
  assert (Hk : forall z : Z,
             (2 * Z.abs (z * Zpos d - n) <= Zpos d)%Z ->
             Qabs (inject_Z z - (n # d)) <= 1 # 2).
  { intros z Hz. apply Qabs_Qle_condition.
    unfold Qle, Qminus, Qplus, Qopp, inject_Z. cbn [Qnum Qden].
    rewrite !Pos2Z.inj_mul. split; nia. }
  destruct (Z.compare_spec (2 * r) (Zpos d)) as [E | L | G].
  - destruct (Z.even k); apply Hk; lia.
  - apply Hk. lia.
  - apply Hk. lia.
Qed.

Lemma Qabs_diff_bound (a b e : Q) :
  Qabs (a - b) <= e -> - e <= Qabs a - Qabs b /\ Qabs a - Qabs b <= e.
Proof.
  intros H.
  pose proof (Qabs_triangle_reverse a b) as H1.
  pose proof (Qabs_triangle_reverse b a) as H2.
  rewrite (Qabs_Qminus b a) in H2.
  split; lra.
Qed.

Lemma Qlt_0_Qnum (x : Q) : x < 0 <-> (Qnum x < 0)%Z.
Proof. unfold Qlt. cbn [Qnum Qden]. lia. Qed.

(** The rendering of [format_f] is a fixed-point notation of its argument,
    whatever the magnitude of the number. *)
Lemma format_f_fixed_point (p : nat) (x : Q) :
  fixed_point (S p) x (format_f (S p) x).
Proof.
  unfold format_f.
  set (scale := (10 ^ Z.of_nat (S p))%Z).
  set (y := x * inject_Z scale).
  set (n := Z.abs (round_half_even y)).
  assert (Hscale : (0 < scale)%Z) by (apply Z.pow_pos_nonneg; lia).
  assert (Hn : (0 <= n)%Z) by apply Z.abs_nonneg.
  exists (if (Qnum x <? 0)%Z then "-" else ""),
    (int_digits (n / scale)), (zfill_digits (S p) (n mod scale)).
  split; [reflexivity|]. split.
  { destruct (Z.ltb_spec (Qnum x) 0) as [Hneg | Hpos].
    - left. split; [apply Qlt_0_Qnum, Hneg | reflexivity].
    - right. split; [|reflexivity].
      apply Qnot_lt_le. intros Hlt. apply Qlt_0_Qnum in Hlt. lia. }
  split; [apply int_digits_nonempty|].
  split; [apply int_digits_all_digits|].
  split; [apply int_digits_no_leading_zero|].
  split; [apply zfill_digits_length|].
  split; [apply zfill_digits_all_digits|].
  rewrite digits_value_app, zfill_digits_value, int_digits_value
    by (apply Z.div_pos; lia).
  fold scale. rewrite Z.mod_mod by lia.
  replace (n / scale * scale + n mod scale)%Z with n
    by (rewrite (Z.div_mod n scale) at 1 by lia; lia).
  set (s := inject_Z scale).
  assert (Hs : 0 < s) by (unfold s, Qlt; cbn [inject_Z Qnum Qden]; lia).
  assert (Hy : Qabs y == Qabs x * s).
  { unfold y. fold s. rewrite Qabs_Qmult, (Qabs_pos s) by lra. reflexivity. }
  assert (Habs : inject_Z n = Qabs (inject_Z (round_half_even y)))
    by reflexivity.
  rewrite Habs.
  destruct (Qabs_diff_bound (inject_Z (round_half_even y)) y (1 # 2)
              (round_half_even_error y)) as [Hlo Hhi].
  set (a := Qabs (inject_Z (round_half_even y))) in *.
  assert (E1 : a / s - Qabs x == (a - Qabs y) * / s)
    by (rewrite Hy; field; lra).
  assert (E2 : 1 / (2 * s) == (1 # 2) * / s) by (field; lra).
  assert (Hinv : 0 <= / s) by (apply Qinv_le_0_compat; lra).
  rewrite E1, E2. apply Qabs_Qle_condition. split.
  - setoid_replace (- ((1 # 2) * / s)) with ((- (1 # 2)) * / s) by ring.
    apply Qmult_le_compat_r; assumption.
  - apply Qmult_le_compat_r; assumption.
Qed.

(** The rendering depends on the number only, not on the fraction that
    represents it. *)
Lemma round_half_even_Qeq (x y : Q) :
  x == y -> round_half_even x = round_half_even y.
Proof.
  intros Hxy. pose proof (Qfloor_comp x y Hxy) as Hk.
  destruct x as [n1 d1], y as [n2 d2].
  unfold Qfloor in Hk. unfold Qeq in Hxy. cbn [Qnum Qden] in Hxy.
  unfold round_half_even. cbn [Qnum Qden]. rewrite <- Hk.
  pose proof (Z.div_mod n1 (Zpos d1) ltac:(discriminate)) as H1.
  pose proof (Z.div_mod n2 (Zpos d2) ltac:(discriminate)) as H2.
  rewrite <- Hk in H2.
  set (k := (n1 / Zpos d1)%Z) in *.
  set (r1 := (n1 mod Zpos d1)%Z) in *.
  set (r2 := (n2 mod Zpos d2)%Z) in *.
  assert (Hr : (r1 * Zpos d2 = r2 * Zpos d1)%Z) by nia.
  destruct (Z.compare_spec (2 * r1) (Zpos d1));
    destruct (Z.compare_spec (2 * r2) (Zpos d2));
    try reflexivity; exfalso; nia.
Qed.

Lemma format_f_Qeq (prec : nat) (x y : Q) :
  x == y -> format_f prec x = format_f prec y.
Proof.
  intros Hxy. unfold format_f.
  assert (Hr : round_half_even (x * inject_Z (10 ^ Z.of_nat prec))
               = round_half_even (y * inject_Z (10 ^ Z.of_nat prec)))
    by (apply round_half_even_Qeq; rewrite Hxy; reflexivity).
  assert (Hs : (Qnum x <? 0)%Z = (Qnum y <? 0)%Z).
  { unfold Qeq in Hxy.
    destruct (Z.ltb_spec (Qnum x) 0); destruct (Z.ltb_spec (Qnum y) 0);
      try reflexivity; exfalso; nia. }
  rewrite Hr, Hs. reflexivity.
Qed.

Lemma get_message_eq (m : InfoMessage.t) :
  InfoMessage.get_message m
  = Ok ("Тип тренировки: " ++ InfoMessage.training_type m
        ++ "; Длительность: " ++ format_f 3 (InfoMessage.duration m)
        ++ " ч.; Дистанция: " ++ format_f 3 (InfoMessage.distance m)
        ++ " км; Ср. скорость: " ++ format_f 3 (InfoMessage.speed m)
        ++ " км/ч; Потрачено ккал: " ++ format_f 3 (InfoMessage.calories m)
        ++ ".").
Proof. reflexivity. Qed.

(** ** The reports of the factory's instances *)

Lemma show_training_info_kind (self : training) (info : InfoMessage.t) :
  show_training_info self = Ok info ->
  InfoMessage.training_type info = class_name (type_of self).
Proof.
  unfold show_training_info. rewrite get_distance_eq. cbn [bind].
  destruct (get_mean_speed self) as [v | e]; [|discriminate].
  cbn [bind].
  destruct (get_spent_calories self) as [cal | e]; [|discriminate].
  cbn [bind]. intros [= <-]. reflexivity.
Qed.

Lemma get_mean_speed_returns (self : training) :
  0 < duration self -> exists v, get_mean_speed self = Ok v.
Proof.
  intros Hd.
  destruct self as [a d w | a d w | a d w h | a d w l c];
    try (eexists; apply Training_get_mean_speed_eq, Hd).
  eexists. apply Swimming_get_mean_speed_eq, Hd.
Qed.

Lemma get_spent_calories_returns (self : training) :
  type_of self <> cTraining ->
  0 < duration self ->
  (forall h, height self = Ok h -> 0 < h) ->
  exists cal, get_spent_calories self = Ok cal.
Proof.
  intros Hc Hd Hh.
  destruct (get_mean_speed_returns self Hd) as [v Hv].
  destruct self as [a d w | a d w | a d w h | a d w l c].
  - exfalso. apply Hc. reflexivity.
  - eexists. apply (Running_get_spent_calories_eq _ _ Hv).
  - eexists. apply (SportsWalking_get_spent_calories_eq _ _ _ _ _ Hv).
    apply Hh. reflexivity.
  - eexists. apply (Swimming_get_spent_calories_eq _ _ Hv).
Qed.

Lemma show_training_info_returns (self : training) :
  type_of self <> cTraining ->
  0 < duration self ->
  (forall h, height self = Ok h -> 0 < h) ->
  exists info, show_training_info self = Ok info.
Proof.
  intros Hc Hd Hh.
  destruct (get_mean_speed_returns self Hd) as [v Hv].
  destruct (get_spent_calories_returns self Hc Hd Hh) as [cal Hcal].
  unfold show_training_info.
  rewrite get_distance_eq, Hv, Hcal. cbn [bind].
  eexists. reflexivity.
Qed.

Lemma read_package_class
    (workout_type : string) (data : list Q) (t : training) :
  read_package workout_type data = Ok t ->
  (workout_type = "SWM" /\ type_of t = cSwimming)
  \/ (workout_type = "RUN" /\ type_of t = cRunning)
  \/ (workout_type = "WLK" /\ type_of t = cSportsWalking).
Proof.
  rewrite read_package_handler_unreachable.
  destruct (getitem WORKOUT_TO_CLASS workout_type) as [cls | e] eqn:Hget;
    [|discriminate].
  cbn [bind]. intros Hcall.
  assert (Ht : type_of t = cls).
  { destruct cls; destruct data as [|a [|d [|w [|h [|c [|x rest]]]]]];
      cbn [call] in Hcall; try discriminate Hcall;
      injection Hcall as <-; reflexivity. }
  rewrite Ht.
  apply getitem_WORKOUT_TO_CLASS_known, Hget.
Qed.

(** C10.  For an instance built by [read_package], the training type of the
    report is the name of the instance's class: [Swimming] for the code
    [SWM], [Running] for [RUN] and [SportsWalking] for [WLK]; the message
    starts with it.  The report exists as soon as the duration and, for
    [SportsWalking], the height are positive. *)
Theorem report_names_the_class
    (workout_type : string) (data : list Q) (t : training) :
  read_package workout_type data = Ok t ->
  (forall info,
      show_training_info t = Ok info ->
      InfoMessage.training_type info = class_name (type_of t)
      /\ ((workout_type = "SWM"
           /\ InfoMessage.training_type info = "Swimming")
          \/ (workout_type = "RUN"
              /\ InfoMessage.training_type info = "Running")
          \/ (workout_type = "WLK"
              /\ InfoMessage.training_type info = "SportsWalking"))
      /\ exists rest,
           InfoMessage.get_message info
           = Ok ("Тип тренировки: " ++ InfoMessage.training_type info
                 ++ "; " ++ rest))
  /\ (0 < duration t ->
      (forall h, height t = Ok h -> 0 < h) ->
      exists info, show_training_info t = Ok info).
Proof.
  intros Hread. pose proof (read_package_class _ _ _ Hread) as Hcls.
  split.
  - intros info Hinfo.
    pose proof (show_training_info_kind _ _ Hinfo) as Hkind.
    split; [exact Hkind|]. split.
    + rewrite Hkind.
      destruct Hcls as [[-> ->] | [[-> ->] | [-> ->]]]; auto.
    + eexists. rewrite get_message_eq. reflexivity.
  - intros Hd Hh. apply show_training_info_returns; try assumption.
    destruct Hcls as [[_ ->] | [[_ ->] | [_ ->]]]; discriminate.
Qed.

Lemma report_names_the_class_witness :
  exists info,
    show_training_info (SportsWalking 9000 1 75 180) = Ok info
    /\ InfoMessage.training_type info = "SportsWalking"
    /\ InfoMessage.training_type info <> "Walking".
Proof.
  assert (Hread : read_package "WLK" [9000; 1; 75; 180]
                  = Ok (SportsWalking 9000 1 75 180)) by reflexivity.
  destruct (report_names_the_class "WLK" [9000; 1; 75; 180] _ Hread)
    as [Hname _].
  eexists. split; [reflexivity|].
  destruct (Hname _ eq_refl) as [Hkind _].
  split; [exact Hkind|].
  rewrite Hkind. discriminate.
Defined.

(** C4.  The package [SWM] with the data [720, 1, 80, 25, 40] yields a
    [Swimming] instance whose distance, mean speed and spent calories are
    rendered, with three decimals, as [0.994], [1.000] and [336.000]. *)
Theorem swimming_scenario :
  exists t dist spd cal,
    read_package "SWM" [720; 1; 80; 25; 40] = Ok t
    /\ type_of t = cSwimming
    /\ get_distance t = Ok dist
    /\ get_mean_speed t = Ok spd
    /\ get_spent_calories t = Ok cal
    /\ round_half_even (dist * 1000) = 994%Z
    /\ round_half_even (spd * 1000) = 1000%Z
    /\ round_half_even (cal * 1000) = 336000%Z
    /\ format_f 3 dist = "0.994"
    /\ format_f 3 spd = "1.000"
    /\ format_f 3 cal = "336.000"
    /\ main t
       = Ok ("Тип тренировки: Swimming; Длительность: 1.000 ч.; "
             ++ "Дистанция: 0.994 км; Ср. скорость: 1.000 км/ч; "
             ++ "Потрачено ккал: 336.000.").
Proof.
  do 4 eexists.
  split; [reflexivity|].
  split; [reflexivity|].
  split; [reflexivity|].
  split; [reflexivity|].
  split; [reflexivity|].
  repeat split; vm_compute; reflexivity.
Qed.

(** ** The packages of the entry point *)

Lemma run_packages_eq :
  run_packages
  = [ Ok ("Тип тренировки: Swimming; Длительность: 1.000 ч.; "
          ++ "Дистанция: 0.994 км; Ср. скорость: 1.000 км/ч; "
          ++ "Потрачено ккал: 336.000.");
      Ok ("Тип тренировки: Running; Длительность: 1.000 ч.; "
          ++ "Дистанция: 9.750 км; Ср. скорость: 9.750 км/ч; "
          ++ "Потрачено ккал: 797.805.");
      Ok ("Тип тренировки: SportsWalking; Длительность: 1.000 ч.; "
          ++ "Дистанция: 5.850 км; Ср. скорость: 5.850 км/ч; "
          ++ "Потрачено ккал: 349.252.") ].
Proof. vm_compute. reflexivity. Qed.

(** Evaluated in binary64, the distance, the mean speed and the calories of
    the three packages are finite and are rendered as in exact arithmetic
    (the square of the walking formula is taken as a product). *)
Lemma packages_binary64 :
  let run_speed :=
    (B64.of_Z 15000 * B64.lit 0.65 / B64.lit 1000.0 / B64.of_Z 1)%b64 in
  let wlk_speed :=
    (B64.of_Z 9000 * B64.lit 0.65 / B64.lit 1000.0 / B64.of_Z 1)%b64 in
  let swm_speed :=
    (B64.of_Z (25 * 40) / B64.lit 1000.0 / B64.of_Z 1)%b64 in
  (B64.format_f 3 (B64.of_Z 720 * B64.lit 1.38 / B64.lit 1000.0)%b64
   = Some "0.994"
   /\ B64.format_f 3 swm_speed = Some "1.000"
   /\ B64.format_f 3
        ((swm_speed + B64.lit 1.1) * B64.lit 2.0
         * B64.of_Z 80 * B64.of_Z 1)%b64
      = Some "336.000")
  /\ (B64.format_f 3 (B64.of_Z 15000 * B64.lit 0.65 / B64.lit 1000.0)%b64
      = Some "9.750"
      /\ B64.format_f 3 run_speed = Some "9.750"
      /\ B64.format_f 3
           ((B64.lit 18.0 * run_speed + B64.lit 1.79)
            * (B64.of_Z 75 / B64.lit 1000.0)
            * (B64.of_Z 1 * B64.lit 60.0))%b64
         = Some "797.805")
  /\ (B64.format_f 3 (B64.of_Z 9000 * B64.lit 0.65 / B64.lit 1000.0)%b64
      = Some "5.850"
      /\ B64.format_f 3 wlk_speed = Some "5.850"
      /\ B64.format_f 3
           ((B64.lit 0.035 * B64.of_Z 75
             + (wlk_speed * B64.lit 0.278) * (wlk_speed * B64.lit 0.278)
               / (B64.of_Z 180 / B64.lit 100.0)
               * B64.lit 0.029 * B64.of_Z 75)
            * B64.of_Z 1 * B64.lit 60.0)%b64
         = Some "349.252").
Proof. vm_compute. repeat split. Qed.

(** * Further properties of the module *)

(** ** Calories of a swim *)

Lemma get_mean_speed_nonzero (self : training) :
  ~ duration self == 0 -> exists v, get_mean_speed self = Ok v.
Proof.
  intros Hd.
  destruct self as [a d w | a d w | a d w h | a d w l c];
    unfold get_mean_speed; cbn [type_of];
    unfold Training_get_mean_speed, Swimming_get_mean_speed;
    rewrite ?get_distance_eq; cbn [bind length_pool count_pool];
    rewrite ?truediv_M_IN_KM; cbn [bind];
    rewrite truediv_nonzero by exact Hd; eexists; reflexivity.
Qed.

(** X1. With [v] the mean speed of a [Swimming] instance whose duration is
    not zero, the instance spends [(v + 1.1) * 2 * weight * duration] kcal. *)
Theorem swimming_calories (a d w l c : Q) :
  ~ d == 0 ->
  exists v,
    returns (get_mean_speed (Swimming a d w l c)) (l * c / 1000 / d)
    /\ get_mean_speed (Swimming a d w l c) = Ok v
    /\ returns (get_spent_calories (Swimming a d w l c))
         ((v + 1.1) * 2 * w * d).
Proof.
  intros Hd.
  destruct (get_mean_speed_nonzero (Swimming a d w l c) Hd) as [v Hv].
  exists v. split; [|split; [exact Hv|]].
  - rewrite Hv. apply returns_Ok.
    unfold get_mean_speed, Swimming_get_mean_speed in Hv.
    cbn [type_of length_pool count_pool bind] in Hv.
    rewrite truediv_M_IN_KM in Hv. cbn [bind duration] in Hv.
    rewrite truediv_nonzero in Hv by exact Hd. injection Hv as <-.
    field. exact Hd.
  - change (get_spent_calories (Swimming a d w l c))
      with (Swimming_get_spent_calories (Swimming a d w l c)).
    rewrite (Swimming_get_spent_calories_eq _ _ Hv).
    apply returns_Ok. cbn [weight duration]. ring.
Qed.

Lemma swimming_calories_witness :
  exists v,
    returns (get_mean_speed (Swimming 720 1 80 25 40)) (25 * 40 / 1000 / 1)
    /\ get_mean_speed (Swimming 720 1 80 25 40) = Ok v
    /\ returns (get_spent_calories (Swimming 720 1 80 25 40))
         ((v + 1.1) * 2 * 80 * 1).
Proof.
  apply (swimming_calories 720 1 80 25 40).
  intros H. discriminate H.
Defined.

(** ** The base class *)

(** X3. On a direct instance of [Training], [get_spent_calories] raises
    [NotImplementedError]; so does [show_training_info], unless the duration
    is zero: the division of [get_mean_speed] then fails first. *)
Theorem base_class_not_implemented (a d w : Q) :
  get_spent_calories (Training a d w) = Raise NotImplementedError
  /\ (~ d == 0 ->
      show_training_info (Training a d w) = Raise NotImplementedError
      /\ main (Training a d w) = Raise NotImplementedError)
  /\ (d == 0 ->
      show_training_info (Training a d w) = Raise ZeroDivisionError
      /\ main (Training a d w) = Raise ZeroDivisionError).
Proof.
  split; [reflexivity|]. split.
  - intros Hd.
    destruct (get_mean_speed_nonzero (Training a d w) Hd) as [v Hv].
    unfold main, show_training_info.
    rewrite get_distance_eq, Hv. split; reflexivity.
  - intros Hd.
    pose proof (get_mean_speed_zero_duration (Training a d w) Hd) as Hv.
    unfold main, show_training_info.
    rewrite get_distance_eq, Hv. split; reflexivity.
Qed.

(** ** What the factory raises and what it stores *)

(** X4. [read_package] fails in two ways only: with the [KeyError] of the
    lookup, for a code that the dictionary lacks, and with the [TypeError]
    of the call, for a known code with data of the wrong length. It never
    raises the [ValueError] of its handler. *)
Theorem read_package_errors
    (workout_type : string) (data : list Q) (e : exn) :
  read_package workout_type data = Raise e ->
  ((e = KeyError workout_type
    /\ workout_type <> "SWM" /\ workout_type <> "RUN"
    /\ workout_type <> "WLK")
   \/ (e = TypeError
       /\ exists cls,
            getitem WORKOUT_TO_CLASS workout_type = Ok cls
            /\ length data <> arity cls))
  /\ (forall msg, e <> ValueError msg).
Proof.
  rewrite read_package_handler_unreachable.
  destruct (getitem WORKOUT_TO_CLASS workout_type) as [cls | e'] eqn:Hget;
    cbn [bind]; intros Hraise.
  - assert (He : e = TypeError /\ length data <> arity cls).
    { destruct (Nat.eq_dec (length data) (arity cls)) as [Hlen | Hlen].
      - destruct (call_arity cls data) as [_ Hok].
        destruct (Hok Hlen) as [t [Ht _]]. congruence.
      - destruct (call_arity cls data) as [Hbad _].
        rewrite (Hbad Hlen) in Hraise. injection Hraise as <-.
        split; [reflexivity | exact Hlen]. }
    destruct He as [-> Hlen]. split; [|discriminate].
    right. split; [reflexivity|]. exists cls. split; [reflexivity | exact Hlen].
  - injection Hraise as ->.
    unfold WORKOUT_TO_CLASS in Hget. cbn [getitem] in Hget.
    destruct (String.eqb_spec "SWM" workout_type) as [E1 | N1];
      [discriminate|].
    destruct (String.eqb_spec "RUN" workout_type) as [E2 | N2];
      [discriminate|].
    destruct (String.eqb_spec "WLK" workout_type) as [E3 | N3];
      [discriminate|].
    injection Hget as <-. split; [|discriminate].
    left. repeat split; congruence.
Qed.

Lemma read_package_errors_witness :
  ((TypeError = KeyError "RUN"
    /\ "RUN" <> "SWM" /\ "RUN" <> "RUN" /\ "RUN" <> "WLK")
   \/ (TypeError = TypeError
       /\ exists cls,
            getitem WORKOUT_TO_CLASS "RUN" = Ok cls
            /\ length [15000; 1; 75; 180] <> arity cls))
  /\ (forall msg, TypeError <> ValueError msg).
Proof.
  apply (read_package_errors "RUN" [15000; 1; 75; 180] TypeError).
  reflexivity.
Defined.

(** X5. The instance built by [read_package] stores the data as they come,
    in the order of the parameters of [__init__]: the attributes of the
    instance, read in that order, are the list received. *)
Theorem read_package_binds_in_order
    (workout_type : string) (data : list Q) (t : training) :
  read_package workout_type data = Ok t ->
  data
  = action t :: duration t :: weight t
    :: match t with
       | SportsWalking _ _ _ h => [h]
       | Swimming _ _ _ l c => [l; c]
       | _ => []
       end.
Proof.
  rewrite read_package_handler_unreachable.
  destruct (getitem WORKOUT_TO_CLASS workout_type) as [cls | e];
    [|discriminate].
  cbn [bind].
  destruct cls; destruct data as [|a [|d [|w [|h [|c [|x rest]]]]]];
    cbn [call]; try discriminate; intros [= <-]; reflexivity.
Qed.

Lemma read_package_binds_in_order_witness :
  [720; 1; 80; 25; 40]
  = action (Swimming 720 1 80 25 40) :: duration (Swimming 720 1 80 25 40)
    :: weight (Swimming 720 1 80 25 40) :: [25; 40].
Proof.
  apply (read_package_binds_in_order "SWM" [720; 1; 80; 25; 40]
           (Swimming 720 1 80 25 40)).
  reflexivity.
Defined.

(** ** How the results vary with the inputs *)

Lemma step_mean_speed_eq (self : training) :
  type_of self = cRunning \/ type_of self = cSportsWalking ->
  ~ duration self == 0 ->
  get_mean_speed self = Ok (action self * 0.65 / 1000.0 / duration self).
Proof.
  intros Hk Hd.
  assert (HL : LEN_STEP self = 0.65)
    by (unfold LEN_STEP; destruct Hk as [-> | ->]; reflexivity).
  unfold get_mean_speed.
  replace (match type_of self with
           | cSwimming => Swimming_get_mean_speed self
           | _ => Training_get_mean_speed self
           end) with (Training_get_mean_speed self)
    by (destruct Hk as [-> | ->]; reflexivity).
  unfold Training_get_mean_speed. rewrite get_distance_eq, HL. cbn [bind].
  apply truediv_nonzero, Hd.
Qed.

(** X8. The mean speed is not negative when the counts are not negative and
    the duration is positive: the action count for [Running] and
    [SportsWalking], the length and the count of the pool for [Swimming]. *)
Theorem mean_speed_nonneg (self : training) :
  0 < duration self ->
  match self with
  | Swimming _ _ _ l c => 0 <= l /\ 0 <= c
  | _ => 0 <= action self
  end ->
  exists v, get_mean_speed self = Ok v /\ 0 <= v.
Proof.
  intros Hd Hin.
  destruct self as [a d w | a d w | a d w h | a d w l c];
    cbn [duration action] in Hd, Hin.
  1-3: eexists; split;
    [apply Training_get_mean_speed_eq; exact Hd|];
    cbn [action duration];
    apply Qdiv_nonneg; [|exact Hd];
    apply Qdiv_nonneg; [|reflexivity];
    apply Qmult_le_0_compat; [exact Hin | discriminate].
  destruct Hin as [Hl Hc].
  eexists. split; [apply Swimming_get_mean_speed_eq; exact Hd|].
  apply Qdiv_nonneg; [|exact Hd].
  apply Qdiv_nonneg; [|reflexivity].
  apply Qmult_le_0_compat; assumption.
Qed.

Lemma mean_speed_nonneg_witness :
  exists v, get_mean_speed (Swimming 720 1 80 25 40) = Ok v /\ 0 <= v.
Proof.
  apply (mean_speed_nonneg (Swimming 720 1 80 25 40)).
  - reflexivity.
  - split; discriminate.
Defined.

(** X9. For a positive weight and a positive duration, more steps never
    spend fewer calories in a run. *)
Theorem running_calories_monotone (a1 a2 d w : Q) :
  0 < d ->
  0 < w ->
  a1 <= a2 ->
  exists c1 c2,
    get_spent_calories (Running a1 d w) = Ok c1
    /\ get_spent_calories (Running a2 d w) = Ok c2
    /\ c1 <= c2.
Proof.
  intros Hd Hw Ha.
  assert (Hd0 : ~ d == 0) by (intros E; rewrite E in Hd; exact (Qlt_irrefl 0 Hd)).
  pose proof (Training_get_mean_speed_eq (Running a1 d w) Hd) as H1.
  pose proof (Training_get_mean_speed_eq (Running a2 d w) Hd) as H2.
  do 2 eexists.
  split; [apply (Running_get_spent_calories_eq (Running a1 d w) _ H1)|].
  split; [apply (Running_get_spent_calories_eq (Running a2 d w) _ H2)|].
  change (LEN_STEP (Running a1 d w)) with 0.65.
  change (LEN_STEP (Running a2 d w)) with 0.65.
  cbn [action weight duration].
  assert (Hk : 0 <= 18.0 * (0.65 / 1000.0 / d) * (w / 1000.0) * (d * 60.0)).
  { apply Qmult_le_0_compat; [apply Qmult_le_0_compat|].
    - apply Qmult_le_0_compat; [discriminate|].
      apply Qdiv_nonneg; [discriminate | exact Hd].
    - apply Qdiv_nonneg; [lra | reflexivity].
    - lra. }
  assert (Hdiff : 0 <= (a2 - a1)
                       * (18.0 * (0.65 / 1000.0 / d) * (w / 1000.0)
                          * (d * 60.0)))
    by (apply Qmult_le_0_compat; [lra | exact Hk]).
  apply Qle_minus_iff.
  setoid_replace
    ((18.0 * (a2 * 0.65 / 1000.0 / d) + 1.79) * (w / 1000.0) * (d * 60.0)
     + - ((18.0 * (a1 * 0.65 / 1000.0 / d) + 1.79) * (w / 1000.0)
          * (d * 60.0)))
    with ((a2 - a1)
          * (18.0 * (0.65 / 1000.0 / d) * (w / 1000.0) * (d * 60.0)))
    by (field; exact Hd0).
  exact Hdiff.
Qed.

Lemma running_calories_monotone_witness :
  exists c1 c2,
    get_spent_calories (Running 9000 1 75) = Ok c1
    /\ get_spent_calories (Running 15000 1 75) = Ok c2
    /\ c1 <= c2.
Proof.
  apply (running_calories_monotone 9000 15000 1 75);
    [reflexivity | reflexivity | discriminate].
Defined.

Lemma SportsWalking_get_spent_calories_nonzero (a d w h v : Q) :
  get_mean_speed (SportsWalking a d w h) = Ok v ->
  ~ h == 0 ->
  get_spent_calories (SportsWalking a d w h)
  = Ok ((0.035 * w + (v * 0.278) ^ 2 / (h / 100.0) * 0.029 * w) * d * 60.0).
Proof.
  intros Hv Hh.
  change (get_spent_calories (SportsWalking a d w h))
    with (SportsWalking_get_spent_calories (SportsWalking a d w h)).
  unfold SportsWalking_get_spent_calories.
  rewrite Hv. cbn [bind height]. rewrite truediv_CM_IN_M. cbn [bind].
  rewrite truediv_nonzero; [reflexivity|].
  intros E. apply Hh.
  assert (E' : h == h / 100.0 * 100.0) by field.
  rewrite E', E. reflexivity.
Qed.

(** X10. For a positive weight, duration and height, more steps never spend
    fewer calories in a walk, as long as the action counts are not negative. *)
Theorem walking_calories_monotone (a1 a2 d w h : Q) :
  0 < d ->
  0 < w ->
  0 < h ->
  0 <= a1 ->
  a1 <= a2 ->
  exists c1 c2,
    get_spent_calories (SportsWalking a1 d w h) = Ok c1
    /\ get_spent_calories (SportsWalking a2 d w h) = Ok c2
    /\ c1 <= c2.
Proof.
  intros Hd Hw Hh Ha1 Ha.
  assert (Hh0 : ~ h == 0) by (intros E; rewrite E in Hh; exact (Qlt_irrefl 0 Hh)).
  assert (Hd0 : ~ d == 0) by (intros E; rewrite E in Hd; exact (Qlt_irrefl 0 Hd)).
  pose proof (step_mean_speed_eq (SportsWalking a1 d w h)
                (or_intror eq_refl) Hd0) as H1.
  pose proof (step_mean_speed_eq (SportsWalking a2 d w h)
                (or_intror eq_refl) Hd0) as H2.
  cbn [action duration] in H1, H2.
  set (v1 := a1 * 0.65 / 1000.0 / d) in *.
  set (v2 := a2 * 0.65 / 1000.0 / d) in *.
  assert (Hv1 : 0 <= v1).
  { unfold v1. apply Qdiv_nonneg; [|exact Hd].
    apply Qdiv_nonneg; [|reflexivity].
    apply Qmult_le_0_compat; [exact Ha1 | discriminate]. }
  assert (Hv : 0 <= v2 - v1).
  { setoid_replace (v2 - v1) with ((a2 - a1) * 0.65 / 1000.0 / d)
      by (unfold v1, v2; field; exact Hd0).
    apply Qdiv_nonneg; [|exact Hd].
    apply Qdiv_nonneg; [|reflexivity].
    apply Qmult_le_0_compat; [lra | discriminate]. }
  do 2 eexists.
  split; [apply (SportsWalking_get_spent_calories_nonzero _ _ _ _ _ H1 Hh0)|].
  split; [apply (SportsWalking_get_spent_calories_nonzero _ _ _ _ _ H2 Hh0)|].
  assert (Hsq : 0 <= (v2 - v1) * (v2 + v1))
    by (apply Qmult_le_0_compat; lra).
  assert (Hk : 0 <= 0.278 * 0.278 / (h / 100.0) * 0.029 * w * d * 60.0).
  { repeat (apply Qmult_le_0_compat; [|lra]).
    apply Qdiv_nonneg; [discriminate|].
    apply Qdiv_pos; [exact Hh | reflexivity]. }
  apply Qle_minus_iff.
  setoid_replace
    ((0.035 * w + (v2 * 0.278) ^ 2 / (h / 100.0) * 0.029 * w) * d * 60.0
     + - ((0.035 * w + (v1 * 0.278) ^ 2 / (h / 100.0) * 0.029 * w)
          * d * 60.0))
    with ((v2 - v1) * (v2 + v1)
          * (0.278 * 0.278 / (h / 100.0) * 0.029 * w * d * 60.0))
    by (field; exact Hh0).
  apply Qmult_le_0_compat; assumption.
Qed.

Lemma walking_calories_monotone_witness :
  exists c1 c2,
    get_spent_calories (SportsWalking 0 1 75 180) = Ok c1
    /\ get_spent_calories (SportsWalking 9000 1 75 180) = Ok c2
    /\ c1 <= c2.
Proof.
  apply (walking_calories_monotone 0 9000 1 75 180);
    [reflexivity | reflexivity | reflexivity | discriminate | discriminate].
Defined.

(** * Properties at run time *)

(** ** The message of a report *)

Lemma exact_finite_sign (s : bool) (m : positive) (e : Z) :
  let v := inject_Z (Zpos m) * 2 ^ e in
  (if s then - v else v) < 0 <-> s = true.
Proof.
  intros v.
  assert (Hv : 0 < v).
  { unfold v. apply Qmult_lt_0_compat; [reflexivity|].
    apply Qpower_0_lt. reflexivity. }
  destruct s; split; intros H; try reflexivity; try discriminate; lra.
Qed.

(** The rendering of a finite float is a fixed-point notation of the float,
    whatever its magnitude. *)
Lemma render_fixed_decimals (p : nat) (f : spec_float) :
  B64.is_finite f = true ->
  fixed_decimals (S p) f (B64.render (S p) f).
Proof.
  intros Hfin. destruct f as [s | s | | s m e]; try discriminate Hfin.
  - destruct (format_f_fixed_point p 0)
      as [sign [ip [fp [Heq [Hsign [H1 [H2 [H3 [H4 [H5 H6]]]]]]]]]].
    assert (Hs : sign = "").
    { destruct Hsign as [[Hneg _] | [_ Hs]]; [|exact Hs].
      exfalso. exact (Qlt_irrefl 0 Hneg). }
    subst sign.
    exists 0, (if s then "-" else ""), ip, fp.
    cbn [B64.exact B64.sign_bit B64.render].
    rewrite Heq. repeat split; assumption.
  - cbn [B64.render].
    set (v := inject_Z (Zpos m) * 2 ^ e).
    set (x := if s then - v else v).
    destruct (format_f_fixed_point p x)
      as [sign [ip [fp [Heq [Hsign [H1 [H2 [H3 [H4 [H5 H6]]]]]]]]]].
    exists x, sign, ip, fp.
    cbn [B64.exact B64.sign_bit]. fold v. fold x.
    split; [reflexivity|]. split; [exact Heq|]. split.
    { pose proof (exact_finite_sign s m e) as Hx. cbv zeta in Hx.
      fold v in Hx. fold x in Hx.
      destruct Hsign as [[Hneg ->] | [Hpos ->]].
      - apply Hx in Hneg. rewrite Hneg. reflexivity.
      - destruct s; [|reflexivity].
        exfalso. assert (Hlt : x < 0) by (apply Hx; reflexivity). lra. }
    repeat split; assumption.
Qed.

Lemma Runtime_get_message_eq (m : Runtime.InfoMessage.t) :
  Runtime.InfoMessage.get_message m
  = (dur <- to_float (Runtime.InfoMessage.duration m) ;;
     dist <- to_float (Runtime.InfoMessage.distance m) ;;
     spd <- to_float (Runtime.InfoMessage.speed m) ;;
     cal <- to_float (Runtime.InfoMessage.calories m) ;;
     Ok ("Тип тренировки: " ++ Runtime.InfoMessage.training_type m
         ++ "; Длительность: " ++ B64.render 3 dur
         ++ " ч.; Дистанция: " ++ B64.render 3 dist
         ++ " км; Ср. скорость: " ++ B64.render 3 spd
         ++ " км/ч; Потрачено ккал: " ++ B64.render 3 cal
         ++ ".")).
Proof.
  unfold Runtime.InfoMessage.get_message, Runtime.MSG, InfoMessage.MSG,
    Runtime.InfoMessage.asdict, format.
  cbn -[to_float B64.render].
  destruct (to_float (Runtime.InfoMessage.duration m)) as [dur | e];
    [|reflexivity].
  destruct (to_float (Runtime.InfoMessage.distance m)) as [dist | e];
    [|reflexivity].
  destruct (to_float (Runtime.InfoMessage.speed m)) as [spd | e];
    [|reflexivity].
  destruct (to_float (Runtime.InfoMessage.calories m)) as [cal | e];
    reflexivity.
Qed.

(** C8, as the code has it.  For every report whose four numbers are
    finite, [get_message] returns the line of the template: the five fields
    in the order of the template, the training type as it is and each of
    the four numbers in fixed-point notation with exactly three digits
    after the point, whatever its magnitude. *)
Theorem get_message_finite_fields
    (m : Runtime.InfoMessage.t) (fdur fdist fspd fcal : spec_float) :
  finite_number (Runtime.InfoMessage.duration m) fdur ->
  finite_number (Runtime.InfoMessage.distance m) fdist ->
  finite_number (Runtime.InfoMessage.speed m) fspd ->
  finite_number (Runtime.InfoMessage.calories m) fcal ->
  exists dur dist spd cal,
    Runtime.InfoMessage.get_message m
    = Ok ("Тип тренировки: " ++ Runtime.InfoMessage.training_type m
          ++ "; Длительность: " ++ dur
          ++ " ч.; Дистанция: " ++ dist
          ++ " км; Ср. скорость: " ++ spd
          ++ " км/ч; Потрачено ккал: " ++ cal
          ++ ".")
    /\ fixed_decimals 3 fdur dur
    /\ fixed_decimals 3 fdist dist
    /\ fixed_decimals 3 fspd spd
    /\ fixed_decimals 3 fcal cal.
Proof.
  intros [Hdur Fdur] [Hdist Fdist] [Hspd Fspd] [Hcal Fcal].
  exists (B64.render 3 fdur), (B64.render 3 fdist), (B64.render 3 fspd),
    (B64.render 3 fcal).
  split.
  - rewrite Runtime_get_message_eq, Hdur, Hdist, Hspd, Hcal. reflexivity.
  - repeat split; apply render_fixed_decimals; assumption.
Qed.

Lemma get_message_finite_fields_witness :
  exists dur dist spd cal,
    Runtime.InfoMessage.get_message
      (Runtime.InfoMessage.Build "Swimming" (PyInt 1)
         (PyFloat (B64.lit 0.9936)) (PyFloat (B64.lit (-0.0004)))
         (PyInt (10 ^ 30)))
    = Ok ("Тип тренировки: " ++ "Swimming"
          ++ "; Длительность: " ++ dur
          ++ " ч.; Дистанция: " ++ dist
          ++ " км; Ср. скорость: " ++ spd
          ++ " км/ч; Потрачено ккал: " ++ cal
          ++ ".")
    /\ fixed_decimals 3 (B64.of_Z 1) dur
    /\ fixed_decimals 3 (B64.lit 0.9936) dist
    /\ fixed_decimals 3 (B64.lit (-0.0004)) spd
    /\ fixed_decimals 3 (B64.of_Z (10 ^ 30)) cal.
Proof.
  apply (get_message_finite_fields
           (Runtime.InfoMessage.Build "Swimming" (PyInt 1)
              (PyFloat (B64.lit 0.9936)) (PyFloat (B64.lit (-0.0004)))
              (PyInt (10 ^ 30))));
    split; vm_compute; reflexivity.
Defined.

(** C8, as stated, fails: the calories of a run of 15000 steps in one hour
    at a weight of [10^308] are infinite, and the line ends with [inf],
    without a decimal. *)
Lemma get_message_infinite_calories :
  exists t info,
    Runtime.read_package "RUN" [PyInt 15000; PyInt 1; PyInt (10 ^ 308)]
    = Ok t
    /\ Runtime.show_training_info t = Ok info
    /\ Runtime.InfoMessage.calories info = PyFloat (S754_infinity false)
    /\ Runtime.InfoMessage.get_message info
       = Ok ("Тип тренировки: Running; Длительность: 1.000 ч.; "
             ++ "Дистанция: 9.750 км; Ср. скорость: 9.750 км/ч; "
             ++ "Потрачено ккал: inf.").
Proof.
  do 2 eexists.
  split; [reflexivity|].
  split; [vm_compute; reflexivity|].
  split; vm_compute; reflexivity.
Qed.

(** ** What the methods raise *)

Lemma fails_in_arithmetic_Ok {A : Type} (a : A) : fails_in_arithmetic (Ok a).
Proof. intros e H. discriminate H. Qed.

Lemma fails_in_arithmetic_bind {A B : Type} (r : result A)
    (k : A -> result B) :
  fails_in_arithmetic r ->
  (forall a, r = Ok a -> fails_in_arithmetic (k a)) ->
  fails_in_arithmetic (x <- r ;; k x).
Proof.
  intros Hr Hk e. destruct r as [a | e']; cbn [bind].
  - apply (Hk a). reflexivity.
  - intros [= <-]. apply Hr. reflexivity.
Qed.

Lemma fails_in_arithmetic_to_float (x : number) :
  fails_in_arithmetic (to_float x).
Proof.
  intros e. destruct x as [z | f]; cbn [to_float]; [|discriminate].
  destruct (B64.of_Z z); try discriminate.
  intros [= <-]. right. reflexivity.
Qed.

Lemma fails_in_arithmetic_truediv (a b : spec_float) :
  fails_in_arithmetic (Runtime.truediv a b).
Proof.
  intros e. unfold Runtime.truediv.
  destruct (B64.is_zero b); [|discriminate].
  intros [= <-]. left. reflexivity.
Qed.

Lemma fails_in_arithmetic_square (x : spec_float) :
  fails_in_arithmetic (Runtime.square x).
Proof.
  intros e. unfold Runtime.square.
  destruct x; try discriminate;
    match goal with
    | |- context [match ?p with _ => _ end] => destruct p
    end; try discriminate; intros [= <-]; right; reflexivity.
Qed.

Lemma fails_in_arithmetic_mul (x y : number) :
  fails_in_arithmetic (Runtime.mul x y).
Proof.
  destruct x as [a | a], y as [b | b]; cbn [Runtime.mul];
    [ apply fails_in_arithmetic_Ok
    | apply fails_in_arithmetic_bind;
      [apply fails_in_arithmetic_to_float|]; intros ? _;
      apply fails_in_arithmetic_bind;
      [apply fails_in_arithmetic_to_float|]; intros ? _;
      apply fails_in_arithmetic_Ok .. ].
Qed.

Ltac arithmetic_step :=
  lazymatch goal with
  | |- fails_in_arithmetic (Ok _) => apply fails_in_arithmetic_Ok
  | |- fails_in_arithmetic (to_float _) => apply fails_in_arithmetic_to_float
  | |- fails_in_arithmetic (Runtime.truediv _ _) =>
      apply fails_in_arithmetic_truediv
  | |- fails_in_arithmetic (Runtime.square _) =>
      apply fails_in_arithmetic_square
  | |- fails_in_arithmetic (Runtime.mul _ _) => apply fails_in_arithmetic_mul
  | |- fails_in_arithmetic (bind _ _) =>
      apply fails_in_arithmetic_bind; [|intros ? _]
  end.

Lemma fails_in_arithmetic_get_distance (t : Runtime.training) :
  fails_in_arithmetic (Runtime.get_distance t).
Proof. unfold Runtime.get_distance. repeat arithmetic_step. Qed.

Lemma fails_in_arithmetic_get_mean_speed (t : Runtime.training) :
  fails_in_arithmetic (Runtime.get_mean_speed t).
Proof.
  destruct t as [a d w | a d w | a d w h | a d w l c];
    unfold Runtime.get_mean_speed; cbn [Runtime.type_of];
    unfold Runtime.Training_get_mean_speed, Runtime.Swimming_get_mean_speed;
    cbn [Runtime.length_pool Runtime.count_pool bind];
    repeat first
      [ arithmetic_step
      | lazymatch goal with
        | |- fails_in_arithmetic (Runtime.get_distance _) =>
            apply fails_in_arithmetic_get_distance
        end ].
Qed.

Lemma fails_in_arithmetic_get_spent_calories (t : Runtime.training) :
  Runtime.type_of t <> cTraining ->
  fails_in_arithmetic (Runtime.get_spent_calories t).
Proof.
  intros Hc.
  destruct t as [a d w | a d w | a d w h | a d w l c];
    [exfalso; apply Hc; reflexivity | | | ];
    unfold Runtime.get_spent_calories; cbn [Runtime.type_of];
    unfold Runtime.Running_get_spent_calories,
      Runtime.SportsWalking_get_spent_calories,
      Runtime.Swimming_get_spent_calories;
    repeat first
      [ arithmetic_step
      | lazymatch goal with
        | |- fails_in_arithmetic (Runtime.get_mean_speed _) =>
            apply fails_in_arithmetic_get_mean_speed
        | |- context [Runtime.height (Runtime.SportsWalking _ _ _ _)] =>
            progress cbn [Runtime.height bind]
        end ].
Qed.

Lemma fails_in_arithmetic_get_message (m : Runtime.InfoMessage.t) :
  fails_in_arithmetic (Runtime.InfoMessage.get_message m).
Proof. rewrite Runtime_get_message_eq. repeat arithmetic_step. Qed.

Lemma fails_in_arithmetic_main (t : Runtime.training) :
  Runtime.type_of t <> cTraining ->
  fails_in_arithmetic (Runtime.main t).
Proof.
  intros Hc. unfold Runtime.main, Runtime.show_training_info.
  apply fails_in_arithmetic_bind;
    [|intros info _; apply fails_in_arithmetic_get_message].
  apply fails_in_arithmetic_bind;
    [apply fails_in_arithmetic_get_distance | intros dist _].
  apply fails_in_arithmetic_bind;
    [apply fails_in_arithmetic_get_mean_speed | intros spd _].
  apply fails_in_arithmetic_bind;
    [apply fails_in_arithmetic_get_spent_calories; exact Hc | intros cal _].
  apply fails_in_arithmetic_Ok.
Qed.

(** ** The factory at run time *)

Lemma Runtime_call_never_ValueError
    (cls : pyclass) (args : list number) (msg : string) :
  Runtime.call cls args <> Raise (ValueError msg).
Proof.
  destruct cls; destruct args as [|a [|d [|w [|h [|c [|x rest]]]]]];
    discriminate.
Qed.

Lemma Runtime_read_package_eq (workout_type : string) (data : list number) :
  Runtime.read_package workout_type data
  = (cls <- getitem WORKOUT_TO_CLASS workout_type ;; Runtime.call cls data).
Proof.
  unfold Runtime.read_package.
  destruct (getitem WORKOUT_TO_CLASS workout_type) as [cls | e] eqn:Hget.
  - cbn [bind]. pose proof (Runtime_call_never_ValueError cls data) as Hcall.
    destruct (Runtime.call cls data) as [t | [ | | | msg | | | | ]];
      try reflexivity.
    exfalso. apply (Hcall msg). reflexivity.
  - cbn [bind].
    unfold WORKOUT_TO_CLASS in Hget. cbn [getitem] in Hget.
    destruct (String.eqb "SWM" workout_type); [discriminate|].
    destruct (String.eqb "RUN" workout_type); [discriminate|].
    destruct (String.eqb "WLK" workout_type); [discriminate|].
    injection Hget as <-. reflexivity.
Qed.

Lemma Runtime_read_package_concrete
    (workout_type : string) (data : list number) (t : Runtime.training) :
  Runtime.read_package workout_type data = Ok t ->
  Runtime.type_of t <> cTraining.
Proof.
  rewrite Runtime_read_package_eq.
  destruct (getitem WORKOUT_TO_CLASS workout_type) as [cls | e] eqn:Hget;
    [|discriminate].
  cbn [bind]. intros Hcall.
  destruct (getitem_WORKOUT_TO_CLASS_known _ _ Hget)
    as [[_ ->] | [[_ ->] | [_ ->]]];
    destruct data as [|a [|d [|w [|h [|c [|x rest]]]]]];
    cbn [Runtime.call] in Hcall; try discriminate Hcall;
    injection Hcall as <-; discriminate.
Qed.

Lemma Runtime_read_package_Raise
    (workout_type : string) (data : list number) (e : exn) :
  Runtime.read_package workout_type data = Raise e ->
  e = KeyError workout_type \/ e = TypeError.
Proof.
  rewrite Runtime_read_package_eq.
  destruct (getitem WORKOUT_TO_CLASS workout_type) as [cls | e'] eqn:Hget;
    cbn [bind]; intros Hraise.
  - right.
    destruct cls; destruct data as [|a [|d [|w [|h [|c [|x rest]]]]]];
      cbn [Runtime.call] in Hraise; congruence.
  - left. injection Hraise as ->.
    unfold WORKOUT_TO_CLASS in Hget. cbn [getitem] in Hget.
    destruct (String.eqb "SWM" workout_type); [discriminate|].
    destruct (String.eqb "RUN" workout_type); [discriminate|].
    destruct (String.eqb "WLK" workout_type); [discriminate|].
    congruence.
Qed.

(** ** Zero divisors at run time *)

Lemma truediv_Ok_nonzero (a b q : spec_float) :
  Runtime.truediv a b = Ok q -> B64.is_zero b = false.
Proof.
  unfold Runtime.truediv. destruct (B64.is_zero b); [discriminate|].
  reflexivity.
Qed.

Lemma bind_Ok {A B : Type} (r : result A) (k : A -> result B) (b : B) :
  (x <- r ;; k x) = Ok b -> exists a, r = Ok a /\ k a = Ok b.
Proof.
  destruct r as [a | e]; cbn [bind]; [|discriminate].
  intros H. exists a. split; [reflexivity | exact H].
Qed.

Ltac invert_binds H :=
  repeat
    (let a := fresh "x" in
     let Ha := fresh "Hx" in
     apply bind_Ok in H; destruct H as [a [Ha H]]).

Lemma get_mean_speed_Ok_duration (t : Runtime.training) (v : spec_float) :
  Runtime.get_mean_speed t = Ok v ->
  exists d, to_float (Runtime.duration t) = Ok d /\ B64.is_zero d = false.
Proof.
  intros H.
  destruct t as [a d w | a d w | a d w h | a d w l c];
    unfold Runtime.get_mean_speed in H; cbn [Runtime.type_of] in H;
    unfold Runtime.Training_get_mean_speed,
      Runtime.Swimming_get_mean_speed in H;
    cbn [Runtime.length_pool Runtime.count_pool bind Runtime.duration] in *;
    invert_binds H;
    match goal with
    | Hd : to_float d = Ok ?f |- _ =>
        exists f; split; [exact Hd | exact (truediv_Ok_nonzero _ _ _ H)]
    end.
Qed.

Lemma div_zero_CM_IN_M (z : spec_float) :
  B64.is_zero z = true ->
  B64.is_zero (z / Runtime.CM_IN_M)%b64 = true.
Proof.
  destruct z as [s | s | | s m e]; try discriminate.
  intros _. destruct s; vm_compute; reflexivity.
Qed.

Lemma walking_calories_Ok_height
    (a d w h : number) (cal : spec_float) :
  Runtime.get_spent_calories (Runtime.SportsWalking a d w h) = Ok cal ->
  exists z, to_float h = Ok z /\ B64.is_zero z = false.
Proof.
  intros H.
  change (Runtime.get_spent_calories (Runtime.SportsWalking a d w h))
    with (Runtime.SportsWalking_get_spent_calories
            (Runtime.SportsWalking a d w h)) in H.
  unfold Runtime.SportsWalking_get_spent_calories in H.
  apply bind_Ok in H. destruct H as [wf [_ H]].
  apply bind_Ok in H. destruct H as [v [_ H]].
  apply bind_Ok in H. destruct H as [sq [_ H]].
  cbn [Runtime.height bind] in H.
  apply bind_Ok in H. destruct H as [hf [Hh H]].
  apply bind_Ok in H. destruct H as [hm [Hhm H]].
  apply bind_Ok in H. destruct H as [ratio [Hratio _]].
  exists hf. split; [exact Hh|].
  apply truediv_Ok_nonzero in Hratio.
  unfold Runtime.truediv in Hhm.
  destruct (B64.is_zero Runtime.CM_IN_M); [discriminate|].
  injection Hhm as <-.
  destruct (B64.is_zero hf) eqn:Hz; [|reflexivity].
  rewrite (div_zero_CM_IN_M hf Hz) in Hratio. discriminate.
Qed.

Lemma main_Ok_methods (t : Runtime.training) (line : string) :
  Runtime.main t = Ok line ->
  exists dist spd cal,
    Runtime.get_distance t = Ok dist
    /\ Runtime.get_mean_speed t = Ok spd
    /\ Runtime.get_spent_calories t = Ok cal.
Proof.
  unfold Runtime.main, Runtime.show_training_info. intros H.
  apply bind_Ok in H. destruct H as [info [H _]].
  apply bind_Ok in H. destruct H as [dist [Hdist H]].
  apply bind_Ok in H. destruct H as [spd [Hspd H]].
  apply bind_Ok in H. destruct H as [cal [Hcal _]].
  exists dist, spd, cal. repeat split; assumption.
Qed.

(** X7.  On an instance built by [read_package], [main] returns a line or
    raises [ZeroDivisionError] or [OverflowError], nothing else.  It prints
    no line for a duration that is zero ([0], [0.0] or [-0.0]), nor for a
    [SportsWalking] instance whose height is zero; for a run or a walk
    whose action count converts to [float], a zero duration raises
    [ZeroDivisionError]. *)
Theorem main_outcome_at_run_time
    (workout_type : string) (data : list number) (t : Runtime.training) :
  Runtime.read_package workout_type data = Ok t ->
  ((exists line, Runtime.main t = Ok line)
   \/ Runtime.main t = Raise ZeroDivisionError
   \/ Runtime.main t = Raise OverflowError)
  /\ (forall z,
        to_float (Runtime.duration t) = Ok z ->
        B64.is_zero z = true ->
        (Runtime.main t = Raise ZeroDivisionError
         \/ Runtime.main t = Raise OverflowError)
        /\ (Runtime.type_of t <> cSwimming ->
            (exists dist, Runtime.get_distance t = Ok dist) ->
            Runtime.main t = Raise ZeroDivisionError))
  /\ (forall h z,
        Runtime.height t = Ok h ->
        to_float h = Ok z ->
        B64.is_zero z = true ->
        Runtime.main t = Raise ZeroDivisionError
        \/ Runtime.main t = Raise OverflowError).
Proof.
  intros Hread.
  pose proof (Runtime_read_package_concrete _ _ _ Hread) as Hc.
  pose proof (fails_in_arithmetic_main t Hc) as Hmain.
  assert (Hfail : (forall line, Runtime.main t <> Ok line) ->
                  Runtime.main t = Raise ZeroDivisionError
                  \/ Runtime.main t = Raise OverflowError).
  { intros Hno. destruct (Runtime.main t) as [line | e] eqn:E.
    - exfalso. apply (Hno line). reflexivity.
    - destruct (Hmain e eq_refl) as [-> | ->]; [left | right]; reflexivity. }
  split; [|split].
  - destruct (Runtime.main t) as [line | e] eqn:E.
    + left. exists line. reflexivity.
    + right. destruct (Hmain e eq_refl) as [-> | ->];
        [left | right]; reflexivity.
  - intros z Hz Hzero. split.
    + apply Hfail. intros line Hline.
      destruct (main_Ok_methods _ _ Hline) as [dist [spd [cal [_ [Hspd _]]]]].
      destruct (get_mean_speed_Ok_duration _ _ Hspd) as [d [Hd Hnz]].
      congruence.
    + intros Hsw [dist Hdist].
      unfold Runtime.main, Runtime.show_training_info.
      rewrite Hdist. cbn [bind].
      assert (Hspd : Runtime.get_mean_speed t = Raise ZeroDivisionError).
      { destruct t as [a d w | a d w | a d w h | a d w l c];
          try (exfalso; apply Hsw; reflexivity);
          unfold Runtime.get_mean_speed; cbn [Runtime.type_of];
          unfold Runtime.Training_get_mean_speed;
          rewrite Hdist; cbn [bind Runtime.duration] in Hz |- *;
          rewrite Hz; cbn [bind]; unfold Runtime.truediv;
          rewrite Hzero; reflexivity. }
      rewrite Hspd. reflexivity.
  - intros h z Hh Hz Hzero. apply Hfail. intros line Hline.
    destruct (main_Ok_methods _ _ Hline) as [dist [spd [cal [_ [_ Hcal]]]]].
    destruct t as [a d w | a d w | a d w h' | a d w l c];
      try discriminate Hh.
    injection Hh as ->.
    destruct (walking_calories_Ok_height _ _ _ _ _ Hcal) as [z' [Hz' Hnz]].
    congruence.
Qed.

Lemma main_outcome_at_run_time_witness :
  Runtime.main (Runtime.Running (PyInt 0) (PyInt (-1)) (PyInt 75))
  = Ok ("Тип тренировки: Running; Длительность: -1.000 ч.; "
        ++ "Дистанция: 0.000 км; Ср. скорость: -0.000 км/ч; "
        ++ "Потрачено ккал: -8.055.")
  /\ Runtime.main (Runtime.Running (PyInt 15000) (PyFloat (S754_zero true))
                     (PyInt 75))
     = Raise ZeroDivisionError
  /\ Runtime.main (Runtime.Running (PyInt (10 ^ 400)) (PyInt 1) (PyInt 75))
     = Raise OverflowError.
Proof.
  split; [vm_compute; reflexivity|]. split; [|vm_compute; reflexivity].
  assert (Hread : Runtime.read_package "RUN"
                    [PyInt 15000; PyFloat (S754_zero true); PyInt 75]
                  = Ok (Runtime.Running (PyInt 15000)
                          (PyFloat (S754_zero true)) (PyInt 75)))
    by reflexivity.
  destruct (main_outcome_at_run_time _ _ _ Hread) as [_ [Hzero _]].
  destruct (Hzero (S754_zero true) eq_refl eq_refl) as [_ Hzde].
  apply Hzde; [discriminate|].
  eexists. vm_compute. reflexivity.
Defined.

(** ** The loop of the entry point *)

Lemma process_Raise (pkg : string * list number) (e : exn) :
  Runtime.process pkg = Raise e ->
  e = KeyError (fst pkg) \/ e = TypeError
  \/ e = ZeroDivisionError \/ e = OverflowError.
Proof.
  unfold Runtime.process.
  destruct (Runtime.read_package (fst pkg) (snd pkg)) as [t | e0] eqn:Hread;
    cbn [bind]; intros H.
  - pose proof (Runtime_read_package_concrete _ _ _ Hread) as Hc.
    destruct (fails_in_arithmetic_main t Hc e H) as [-> | ->]; auto.
  - injection H as ->.
    destruct (Runtime_read_package_Raise _ _ _ Hread) as [-> | ->]; auto.
Qed.

(** X12.  The loop of the entry point prints the lines of the packages in
    order, one per package, up to the first package that fails: the lines
    printed are those of the first packages of the list, and the program
    ends either after the last package, without an exception, or at the
    first package that raises, with its exception, which is the [KeyError]
    of an unknown code, the [TypeError] of data of the wrong length, a
    [ZeroDivisionError] or an [OverflowError]. *)
Theorem run_loop_prints_until_failure
    (pkgs : list (string * list number)) (printed : list string)
    (err : option exn) :
  Runtime.run_loop pkgs = (printed, err) ->
  Forall2 (fun pkg line => Runtime.process pkg = Ok line)
    (firstn (length printed) pkgs) printed
  /\ match err with
     | None => length printed = length pkgs
     | Some e =>
         exists pkg,
           nth_error pkgs (length printed) = Some pkg
           /\ Runtime.process pkg = Raise e
           /\ (e = KeyError (fst pkg) \/ e = TypeError
               \/ e = ZeroDivisionError \/ e = OverflowError)
     end.
Proof.
  revert printed err.
  induction pkgs as [|pkg rest IH]; intros printed err.
  - cbn [Runtime.run_loop]. intros [= <- <-]. cbn [length firstn].
    split; [constructor | reflexivity].
  - cbn [Runtime.run_loop].
    destruct (Runtime.process pkg) as [line | e] eqn:Hproc.
    + destruct (Runtime.run_loop rest) as [printed' err'] eqn:Hrest.
      intros [= <- <-].
      destruct (IH printed' err' eq_refl) as [Hlines Hend].
      cbn [length firstn nth_error]. split.
      * constructor; [exact Hproc | exact Hlines].
      * destruct err' as [e|]; [exact Hend | f_equal; exact Hend].
    + intros [= <- <-]. cbn [length firstn nth_error].
      split; [constructor|].
      exists pkg. split; [reflexivity|]. split; [exact Hproc|].
      apply process_Raise, Hproc.
Qed.

Lemma run_loop_prints_until_failure_witness :
  Runtime.run_loop Runtime.packages
  = ([ "Тип тренировки: Swimming; Длительность: 1.000 ч.; "
       ++ "Дистанция: 0.994 км; Ср. скорость: 1.000 км/ч; "
       ++ "Потрачено ккал: 336.000.";
       "Тип тренировки: Running; Длительность: 1.000 ч.; "
       ++ "Дистанция: 9.750 км; Ср. скорость: 9.750 км/ч; "
       ++ "Потрачено ккал: 797.805.";
       "Тип тренировки: SportsWalking; Длительность: 1.000 ч.; "
       ++ "Дистанция: 5.850 км; Ср. скорость: 5.850 км/ч; "
       ++ "Потрачено ккал: 349.252." ], None)
  /\ Forall2 (fun pkg line => Runtime.process pkg = Ok line)
       (firstn 3 Runtime.packages)
       [ "Тип тренировки: Swimming; Длительность: 1.000 ч.; "
         ++ "Дистанция: 0.994 км; Ср. скорость: 1.000 км/ч; "
         ++ "Потрачено ккал: 336.000.";
         "Тип тренировки: Running; Длительность: 1.000 ч.; "
         ++ "Дистанция: 9.750 км; Ср. скорость: 9.750 км/ч; "
         ++ "Потрачено ккал: 797.805.";
         "Тип тренировки: SportsWalking; Длительность: 1.000 ч.; "
         ++ "Дистанция: 5.850 км; Ср. скорость: 5.850 км/ч; "
         ++ "Потрачено ккал: 349.252." ].
Proof.
  assert (Hrun : Runtime.run_loop Runtime.packages
    = ([ "Тип тренировки: Swimming; Длительность: 1.000 ч.; "
         ++ "Дистанция: 0.994 км; Ср. скорость: 1.000 км/ч; "
         ++ "Потрачено ккал: 336.000.";
         "Тип тренировки: Running; Длительность: 1.000 ч.; "
         ++ "Дистанция: 9.750 км; Ср. скорость: 9.750 км/ч; "
         ++ "Потрачено ккал: 797.805.";
         "Тип тренировки: SportsWalking; Длительность: 1.000 ч.; "
         ++ "Дистанция: 5.850 км; Ср. скорость: 5.850 км/ч; "
         ++ "Потрачено ккал: 349.252." ], None))
    by (vm_compute; reflexivity).
  split; [exact Hrun|].
  destruct (run_loop_prints_until_failure _ _ _ Hrun) as [Hlines _].
  exact Hlines.
Defined.
